(** * MeetingsPage: the meeting creation workflow and the meeting list view

    A shallow embedding of [src/pages/MeetingsPage.tsx].  The React component
    is modelled by explicit state passing: a [Page] record carries the three
    [useState] cells of the component together with the two outside surfaces
    the handlers write to (the notification surface and the integration
    service), and every handler is a function on [Page].

    Strings are sequences of code units.  The embedding uses [string], read
    as code units below 256; the white space removed by [trim] is therefore
    the part of ECMAScript's WhiteSpace and LineTerminator sets that lies
    below 256. *)

From Stdlib Require Import String Ascii List ZArith Lia Bool DecimalString.
From Stdlib Require DecimalPos DecimalZ.
Import ListNotations.
Open Scope string_scope.
Open Scope Z_scope.

(** ** The string built-ins the page uses *)

Module JS.

(** [Boolean(s)] and the truthiness test of [!s], [a || b] on strings:
    only the empty string is falsy. *)
Definition Boolean (s : string) : bool :=
  match s with
  | EmptyString => false
  | String _ _ => true
  end.

(** An optional property is [None] when it is [undefined]. *)
Definition truthy (v : option string) : bool :=
  match v with
  | Some s => Boolean s
  | None => false
  end.

(** [a || b]: the left operand when it is truthy, the right one otherwise. *)
Definition or (a b : option string) : option string :=
  if truthy a then a else b.

(** TAB, LF, VT, FF, CR, SPACE and NBSP. *)
Definition isWhiteSpace (c : ascii) : bool :=
  let n := nat_of_ascii c in
  (Nat.eqb n 9 || Nat.eqb n 10 || Nat.eqb n 11 || Nat.eqb n 12
   || Nat.eqb n 13 || Nat.eqb n 32 || Nat.eqb n 160)%bool.

Fixpoint trimStart (s : string) : string :=
  match s with
  | EmptyString => EmptyString
  | String c s' => if isWhiteSpace c then trimStart s' else s
  end.

(** Dropping trailing white space: a character is kept when it is not
    white space or when something is kept after it. *)
Fixpoint trimEnd (s : string) : string :=
  match s with
  | EmptyString => EmptyString
  | String c s' =>
      match trimEnd s' with
      | EmptyString => if isWhiteSpace c then EmptyString
                       else String c EmptyString
      | String _ _ as r => String c r
      end
  end.

Definition trim (s : string) : string := trimEnd (trimStart s).

(** [s.split(sep)] for a separator of one code unit.  The result is never
    empty: a string without separator is its own single piece. *)
Fixpoint split (sep : ascii) (s : string) : list string :=
  match s with
  | EmptyString => [EmptyString]
  | String c s' =>
      if Ascii.eqb c sep then EmptyString :: split sep s'
      else match split sep s' with
           | p :: ps => String c p :: ps
           | [] => [String c EmptyString]
           end
  end.

(** [pieces.join(sep)]. *)
Fixpoint join (sep : ascii) (pieces : list string) : string :=
  match pieces with
  | [] => EmptyString
  | [p] => p
  | p :: ps => p ++ String sep (join sep ps)
  end.

(** [s.includes(sub)]. *)
Fixpoint includes (s sub : string) : bool :=
  (String.prefix sub s
   || match s with
      | EmptyString => false
      | String _ s' => includes s' sub
      end)%bool.

(** [n.toString()] for an integral number. *)
Definition toString (n : Z) : string :=
  NilZero.string_of_int (Z.to_int n).

(** [a || d] where [d] is a string literal: always a string. *)
Definition orElse (a : option string) (d : string) : string :=
  match a with
  | Some s => if Boolean s then s else d
  | None => d
  end.

(** Optional chaining [o?.f]: [undefined] when [o] is. *)
Definition chain {A B : Type} (o : option A) (f : A -> option B) : option B :=
  match o with
  | Some a => f a
  | None => None
  end.

End JS.

Notation "o ?. f" := (JS.chain o f) (at level 25, left associativity).

(** ** Errors

    The value a rejected creation call carries, as [onError] reads it:
    [error.response?.data?.error] and [error.message]. *)

Module ErrorData.
Record t := { error : option string }.
End ErrorData.

Module ErrorResponse.
Record t := { data : option ErrorData.t }.
End ErrorResponse.

Module Error.
Record t := { response : option ErrorResponse.t; message : option string }.
End Error.

(** ** The host's [Date]

    [Date] belongs to the host, not to the page.  The page only needs three
    things from it: the time value of a string ([None] is NaN, an invalid
    date), the text [toISOString] prints for a valid time value, and the
    message of the [RangeError] that [toISOString] throws on an invalid
    date.  Time values are milliseconds since the epoch. *)

Class DateHost := {
  Date_parse : string -> option Z;
  Date_print : Z -> string;
  RangeError_message : string
}.

Module Date.

Definition t := option Z.

(** [new Date(s)] *)
Definition new `{host : DateHost} (s : string) : t := Date_parse s.

(** [new Date()] at clock reading [now] *)
Definition current (now : Z) : t := Some now.

(** [d.toISOString()]: throws on an invalid date. *)
Definition toISOString `{host : DateHost} (d : t) : Error.t + string :=
  match d with
  | Some tv => inr (Date_print tv)
  | None => inl {| Error.response := None;
                   Error.message := Some RangeError_message |}
  end.

(** [a < b] and [a > b] compare time values; a comparison with NaN is
    false. *)
Definition lt (a b : t) : bool :=
  match a, b with
  | Some x, Some y => x <? y
  | _, _ => false
  end.

Definition gt (a b : t) : bool := lt b a.

End Date.

Notation "x <- e ;; k" :=
  (match e with inl err => inl err | inr x => k end)
  (at level 61, e at next level, right associativity).

(** ** Data model *)

Inductive Platform := google | teams.

Inductive Status := scheduled | completed | cancelled.

Definition Platform_eqb (a b : Platform) : bool :=
  match a, b with
  | google, google | teams, teams => true
  | _, _ => false
  end.

Definition Status_eqb (a b : Status) : bool :=
  match a, b with
  | scheduled, scheduled | completed, completed | cancelled, cancelled => true
  | _, _ => false
  end.

(** The draft held by the form. *)
Module FormData.
Record t := {
  title : string;
  description : string;
  startTime : string;
  endTime : string;
  attendees : string;
  platform : Platform
}.
End FormData.

Module Meeting.
Record t := {
  id : string;
  title : string;
  description : string;
  startTime : string;
  endTime : string;
  attendees : list string;
  platform : Platform;
  meetingLink : option string;
  joinUrl : option string;
  status : Status
}.
End Meeting.

(** What the integration service is given. *)
Module Payload.
Record t := {
  title : string;
  description : string;
  startTime : string;
  endTime : string;
  attendees : list string
}.
End Payload.

(** What the integration service answers, as [onSuccess] reads it: the two
    links at the top level or under [data]. *)
Module ResponseData.
Record t := { meetingLink : option string; joinUrl : option string }.
End ResponseData.

Module Response.
Record t := {
  meetingLink : option string;
  joinUrl : option string;
  data : option ResponseData.t
}.
End Response.

(** The part of the signed-in user the page looks at:
    [currentUser?.integrations?.microsoft?.connected]. *)
Module Microsoft.
Record t := { connected : option bool }.
End Microsoft.

Module Integrations.
Record t := { microsoft : option Microsoft.t }.
End Integrations.

Module User.
Record t := { integrations : option Integrations.t }.
End User.

Definition truthyFlag (v : option bool) : bool :=
  match v with
  | Some b => b
  | None => false
  end.

(** The notification surface. *)
Module toast.
Inductive t :=
| success (msg : string)
| error (msg : string)
| info (msg : string).
End toast.

(** The two creation calls of the integration service. *)
Module IntegrationService.
Inductive call :=
| createGoogleMeeting (payload : Payload.t)
| createTeamsMeeting (payload : Payload.t).

Definition payload (c : call) : Payload.t :=
  match c with
  | createGoogleMeeting p | createTeamsMeeting p => p
  end.

Definition isGoogle (c : call) : bool :=
  match c with
  | createGoogleMeeting _ => true
  | createTeamsMeeting _ => false
  end.
End IntegrationService.

(** ** The page

    The state cells of the component, then the notifications shown and the
    creation calls issued so far, oldest first. *)
Record Page := {
  isCreateDialogOpen : bool;
  selectedPlatform : Platform;
  formData : FormData.t;
  meetings : list Meeting.t;
  toasts : list toast.t;
  calls : list IntegrationService.call
}.

Definition setIsCreateDialogOpen (b : bool) (p : Page) : Page :=
  {| isCreateDialogOpen := b;
     selectedPlatform := selectedPlatform p;
     formData := formData p;
     meetings := meetings p;
     toasts := toasts p;
     calls := calls p |}.

Definition setFormData (d : FormData.t) (p : Page) : Page :=
  {| isCreateDialogOpen := isCreateDialogOpen p;
     selectedPlatform := selectedPlatform p;
     formData := d;
     meetings := meetings p;
     toasts := toasts p;
     calls := calls p |}.

(** [setMeetings(prev => f(prev))] *)
Definition setMeetings (f : list Meeting.t -> list Meeting.t) (p : Page) : Page :=
  {| isCreateDialogOpen := isCreateDialogOpen p;
     selectedPlatform := selectedPlatform p;
     formData := formData p;
     meetings := f (meetings p);
     toasts := toasts p;
     calls := calls p |}.

Definition notify (n : toast.t) (p : Page) : Page :=
  {| isCreateDialogOpen := isCreateDialogOpen p;
     selectedPlatform := selectedPlatform p;
     formData := formData p;
     meetings := meetings p;
     toasts := toasts p ++ [n];
     calls := calls p |}.

Definition invoke (c : IntegrationService.call) (p : Page) : Page :=
  {| isCreateDialogOpen := isCreateDialogOpen p;
     selectedPlatform := selectedPlatform p;
     formData := formData p;
     meetings := meetings p;
     toasts := toasts p;
     calls := calls p ++ [c] |}.

(** ** The creation workflow *)

Section Workflow.

Context `{host : DateHost}.

(** The local [attendeesList] of [mutationFn]. *)
Definition attendeesList (data : FormData.t) : list string :=
  filter JS.Boolean (map JS.trim (JS.split "," (FormData.attendees data))).

(** [createMeetingMutation.mutationFn]: builds the payload and picks the
    creation call; it ends with the [RangeError] of [toISOString] when one
    of the two times is not a date. *)
Definition mutationFn (data : FormData.t) : Error.t + IntegrationService.call :=
  let attendeesList := attendeesList data in
  startTime <- Date.toISOString (Date.new (FormData.startTime data)) ;;
  endTime <- Date.toISOString (Date.new (FormData.endTime data)) ;;
  let payload :=
    {| Payload.title := FormData.title data;
       Payload.description := FormData.description data;
       Payload.startTime := startTime;
       Payload.endTime := endTime;
       Payload.attendees := attendeesList |} in
  if Platform_eqb (FormData.platform data) google
  then inr (IntegrationService.createGoogleMeeting payload)
  else inr (IntegrationService.createTeamsMeeting payload).

Definition resetForm (p : Page) : Page :=
  setFormData
    {| FormData.title := "";
       FormData.description := "";
       FormData.startTime := "";
       FormData.endTime := "";
       FormData.attendees := "";
       FormData.platform := google |} p.

(** [createMeetingMutation.onSuccess]; [now] is the reading of [Date.now()]. *)
Definition onSuccess (response : Response.t) (variables : FormData.t)
    (now : Z) (p : Page) : Page :=
  let p := notify
    (toast.success "Meeting created successfully! Invitations sent to attendees.") p in
  let newMeeting :=
    {| Meeting.id := JS.toString now;
       Meeting.title := FormData.title variables;
       Meeting.description := FormData.description variables;
       Meeting.startTime := FormData.startTime variables;
       Meeting.endTime := FormData.endTime variables;
       Meeting.platform := FormData.platform variables;
       Meeting.attendees :=
         filter JS.Boolean
           (map JS.trim (JS.split "," (FormData.attendees variables)));
       Meeting.meetingLink :=
         JS.or (Response.meetingLink response)
               (Response.data response ?. ResponseData.meetingLink);
       Meeting.joinUrl :=
         JS.or (Response.joinUrl response)
               (Response.data response ?. ResponseData.joinUrl);
       Meeting.status := scheduled |} in
  let p := setMeetings (fun prev => newMeeting :: prev) p in
  let p := setIsCreateDialogOpen false p in
  resetForm p.

(** [createMeetingMutation.onError] *)
Definition onError (error : Error.t) (p : Page) : Page :=
  let errorMessage :=
    JS.orElse
      (JS.or (Error.response error ?. ErrorResponse.data ?. ErrorData.error)
             (Error.message error))
      "Failed to create meeting" in
  let p := notify (toast.error errorMessage) p in
  if JS.includes errorMessage "not connected"
  then notify
         (toast.info
            "Please connect your Microsoft account in the Integrations tab.") p
  else p.

(** [createMeetingMutation.mutate(variables)]: the mutation runs
    [mutationFn]; an exception thrown there is a rejection and reaches
    [onError], otherwise the chosen creation call is issued. *)
Definition mutate (variables : FormData.t) (p : Page) : Page :=
  match mutationFn variables with
  | inl error => onError error p
  | inr call => invoke call p
  end.

(** How an issued call ends. *)
Inductive settled :=
| fulfilled (response : Response.t)
| rejected (error : Error.t).

Definition settle (s : settled) (variables : FormData.t) (now : Z)
    (p : Page) : Page :=
  match s with
  | fulfilled response => onSuccess response variables now p
  | rejected error => onError error p
  end.

Definition handleCreateMeeting (currentUser : option User.t) (p : Page) : Page :=
  let formData := formData p in
  if (negb (JS.Boolean (FormData.title formData))
      || negb (JS.Boolean (FormData.startTime formData))
      || negb (JS.Boolean (FormData.endTime formData)))%bool
  then notify (toast.error "Please fill in all required fields") p
  else
    let p :=
      if (Platform_eqb (FormData.platform formData) teams
          && negb (truthyFlag
                     (currentUser ?. User.integrations
                                  ?. Integrations.microsoft
                                  ?. Microsoft.connected)))%bool
      then notify (toast.error "Microsoft Teams integration NOT connected") p
      else p in
    mutate formData p.

(** ** The meeting list view; [now] is the reading of [new Date()]. *)

Definition upcomingMeetings (now : Z) (meetings : list Meeting.t) : list Meeting.t :=
  filter
    (fun m =>
       Status_eqb (Meeting.status m) scheduled
       && Date.gt (Date.new (Meeting.startTime m)) (Date.current now))%bool
    meetings.

Definition pastMeetings (now : Z) (meetings : list Meeting.t) : list Meeting.t :=
  filter
    (fun m =>
       Status_eqb (Meeting.status m) completed
       || Date.lt (Date.new (Meeting.endTime m)) (Date.current now))%bool
    meetings.

End Workflow.

(** ** A concrete host

    A host in the UTC time zone whose [Date] reads the text a
    [datetime-local] control yields, [YYYY-MM-DDTHH:mm], and nothing else.
    It is used to run the page on concrete drafts. *)

Module UTC.

Definition msPerDay : Z := 86400000.

Definition digit (c : ascii) : option Z :=
  let n := Z.of_nat (nat_of_ascii c) in
  if ((48 <=? n) && (n <=? 57))%bool then Some (n - 48) else None.

Fixpoint digits (acc : Z) (cs : list ascii) : option Z :=
  match cs with
  | [] => Some acc
  | c :: cs' =>
      match digit c with
      | Some d => digits (10 * acc + d) cs'
      | None => None
      end
  end.

Definition isLeap (y : Z) : bool :=
  ((y mod 4 =? 0) && (negb (y mod 100 =? 0) || (y mod 400 =? 0)))%bool.

Definition daysInMonth (y m : Z) : Z :=
  if m =? 2 then (if isLeap y then 29 else 28)
  else if ((m =? 4) || (m =? 6) || (m =? 9) || (m =? 11))%bool then 30
  else 31.

(** Days from 1970-01-01 to the civil date, and back, in the proleptic
    Gregorian calendar (years counted from March, in eras of 400 years). *)
Definition daysFromCivil (y m d : Z) : Z :=
  let y := if m <=? 2 then y - 1 else y in
  let era := y / 400 in
  let yoe := y - era * 400 in
  let doy := (153 * ((m + 9) mod 12) + 2) / 5 + d - 1 in
  let doe := yoe * 365 + yoe / 4 - yoe / 100 + doy in
  era * 146097 + doe - 719468.

Definition civilFromDays (z : Z) : Z * Z * Z :=
  let z := z + 719468 in
  let era := z / 146097 in
  let doe := z - era * 146097 in
  let yoe := (doe - doe / 1460 + doe / 36524 - doe / 146096) / 365 in
  let doy := doe - (365 * yoe + yoe / 4 - yoe / 100) in
  let mp := (5 * doy + 2) / 153 in
  let d := doy - (153 * mp + 2) / 5 + 1 in
  let m := if mp <? 10 then mp + 3 else mp - 9 in
  let y := yoe + era * 400 in
  (if m <=? 2 then y + 1 else y, m, d).

Definition sep (c expected : ascii) : bool := Ascii.eqb c expected.

Definition parse (s : string) : option Z :=
  match list_ascii_of_string s with
  | [y1; y2; y3; y4; s1; m1; m2; s2; d1; d2; s3; h1; h2; s4; n1; n2] =>
      match digits 0 [y1; y2; y3; y4], digits 0 [m1; m2], digits 0 [d1; d2],
            digits 0 [h1; h2], digits 0 [n1; n2] with
      | Some y, Some m, Some d, Some h, Some n =>
          if (sep s1 "-" && sep s2 "-" && sep s3 "T" && sep s4 ":"
              && (1 <=? m) && (m <=? 12) && (1 <=? d) && (d <=? daysInMonth y m)
              && (h <=? 23) && (n <=? 59))%bool
          then Some (daysFromCivil y m d * msPerDay + h * 3600000 + n * 60000)
          else None
      | _, _, _, _, _ => None
      end
  | _ => None
  end.

Fixpoint zeros (n : nat) : string :=
  match n with
  | O => EmptyString
  | S n' => String "0" (zeros n')
  end.

Definition pad (width : nat) (n : Z) : string :=
  let s := JS.toString n in
  zeros (width - String.length s) ++ s.

Definition print (tv : Z) : string :=
  let ms := tv mod msPerDay in
  let '(y, m, d) := civilFromDays (tv / msPerDay) in
  let year :=
    if ((0 <=? y) && (y <=? 9999))%bool then pad 4 y
    else (if y <? 0 then "-" else "+") ++ pad 6 (Z.abs y) in
  year ++ "-" ++ pad 2 m ++ "-" ++ pad 2 d
       ++ "T" ++ pad 2 (ms / 3600000) ++ ":" ++ pad 2 (ms / 60000 mod 60)
       ++ ":" ++ pad 2 (ms / 1000 mod 60) ++ "." ++ pad 3 (ms mod 1000) ++ "Z".

Definition host : DateHost :=
  {| Date_parse := parse;
     Date_print := print;
     RangeError_message := "Invalid time value" |}.

End UTC.


(** ** Concrete drafts, meetings and pages *)

Module Sample.

(** 2024-01-01T10:00Z *)
Definition now : Z := 1704103200000.

Definition blank : FormData.t :=
  {| FormData.title := "";
     FormData.description := "";
     FormData.startTime := "";
     FormData.endTime := "";
     FormData.attendees := "";
     FormData.platform := google |}.

Definition draft (startTime endTime : string) (platform : Platform) : FormData.t :=
  {| FormData.title := "Sprint Planning Meeting";
     FormData.description := "";
     FormData.startTime := startTime;
     FormData.endTime := endTime;
     FormData.attendees := "a@x.com, , b@y.com ,";
     FormData.platform := platform |}.

(** The page with the dialog open on draft [d] and nothing done yet. *)
Definition page (d : FormData.t) : Page :=
  {| isCreateDialogOpen := true;
     selectedPlatform := google;
     formData := d;
     meetings := [];
     toasts := [];
     calls := [] |}.

Definition meeting (status : Status) (startTime endTime : string) : Meeting.t :=
  {| Meeting.id := "1704100000000";
     Meeting.title := "Sprint Planning Meeting";
     Meeting.description := "";
     Meeting.startTime := startTime;
     Meeting.endTime := endTime;
     Meeting.attendees := ["a@x.com"; "b@y.com"];
     Meeting.platform := google;
     Meeting.meetingLink := None;
     Meeting.joinUrl := None;
     Meeting.status := status |}.

(** A rejection without a server message, as a failed connection gives. *)
Definition networkError : Error.t :=
  {| Error.response := None; Error.message := Some "Network Error" |}.

(** A response whose top-level link is the empty string and whose link
    is under [data]. *)
Definition nestedLink : Response.t :=
  {| Response.meetingLink := Some "";
     Response.joinUrl := None;
     Response.data :=
       Some {| ResponseData.meetingLink := Some "https://meet.google.com/abc-defg-hij";
               ResponseData.joinUrl := None |} |}.

End Sample.

(** ** Vocabulary of the statements *)

Fixpoint allWhiteSpace (s : string) : bool :=
  match s with
  | EmptyString => true
  | String c s' => (JS.isWhiteSpace c && allWhiteSpace s')%bool
  end.

Definition startsWithWhiteSpace (s : string) : bool :=
  match s with
  | EmptyString => false
  | String c _ => JS.isWhiteSpace c
  end.

Fixpoint endsWithWhiteSpace (s : string) : bool :=
  match s with
  | EmptyString => false
  | String c EmptyString => JS.isWhiteSpace c
  | String _ s' => endsWithWhiteSpace s'
  end.

Fixpoint contains (c : ascii) (s : string) : bool :=
  match s with
  | EmptyString => false
  | String c' s' => (Ascii.eqb c' c || contains c s')%bool
  end.

(** [core] is [piece] without the white space around it. *)
Definition trimmedOf (piece core : string) : Prop :=
  exists l r,
    piece = l ++ core ++ r
    /\ allWhiteSpace l = true /\ allWhiteSpace r = true
    /\ startsWithWhiteSpace core = false /\ endsWithWhiteSpace core = false.

Definition nonEmpty (s : string) : bool := negb (String.eqb s "").

(** ** The rest of the page

    The controls of the dialog, the "This Week" count and what a meeting
    card shows. *)

(** [setFormData(prev => f(prev))] *)
Definition updateFormData (f : FormData.t -> FormData.t) (p : Page) : Page :=
  setFormData (f (formData p)) p.

(** The [onValueChange] of the platform select and the [onChange] of the
    five inputs: [setFormData(prev => ({ ...prev, field: value }))]. *)
Definition onPlatformChange (value : Platform) : Page -> Page :=
  updateFormData (fun prev =>
    {| FormData.title := FormData.title prev;
       FormData.description := FormData.description prev;
       FormData.startTime := FormData.startTime prev;
       FormData.endTime := FormData.endTime prev;
       FormData.attendees := FormData.attendees prev;
       FormData.platform := value |}).

Definition onTitleChange (value : string) : Page -> Page :=
  updateFormData (fun prev =>
    {| FormData.title := value;
       FormData.description := FormData.description prev;
       FormData.startTime := FormData.startTime prev;
       FormData.endTime := FormData.endTime prev;
       FormData.attendees := FormData.attendees prev;
       FormData.platform := FormData.platform prev |}).

Definition onDescriptionChange (value : string) : Page -> Page :=
  updateFormData (fun prev =>
    {| FormData.title := FormData.title prev;
       FormData.description := value;
       FormData.startTime := FormData.startTime prev;
       FormData.endTime := FormData.endTime prev;
       FormData.attendees := FormData.attendees prev;
       FormData.platform := FormData.platform prev |}).

Definition onStartTimeChange (value : string) : Page -> Page :=
  updateFormData (fun prev =>
    {| FormData.title := FormData.title prev;
       FormData.description := FormData.description prev;
       FormData.startTime := value;
       FormData.endTime := FormData.endTime prev;
       FormData.attendees := FormData.attendees prev;
       FormData.platform := FormData.platform prev |}).

Definition onEndTimeChange (value : string) : Page -> Page :=
  updateFormData (fun prev =>
    {| FormData.title := FormData.title prev;
       FormData.description := FormData.description prev;
       FormData.startTime := FormData.startTime prev;
       FormData.endTime := value;
       FormData.attendees := FormData.attendees prev;
       FormData.platform := FormData.platform prev |}).

Definition onAttendeesChange (value : string) : Page -> Page :=
  updateFormData (fun prev =>
    {| FormData.title := FormData.title prev;
       FormData.description := FormData.description prev;
       FormData.startTime := FormData.startTime prev;
       FormData.endTime := FormData.endTime prev;
       FormData.attendees := value;
       FormData.platform := FormData.platform prev |}).

(** [xs.join(sep)] for a separator of any length. *)
Fixpoint joinWith (sep : string) (xs : list string) : string :=
  match xs with
  | [] => EmptyString
  | [x] => x
  | x :: rest => x ++ sep ++ joinWith sep rest
  end.

(** [a <= b] on dates; false when one of them is invalid. *)
Definition Date_le (a b : Date.t) : bool :=
  match a, b with
  | Some x, Some y => x <=? y
  | _, _ => false
  end.

(** The calendar of the host: [Date_plusDays tv n] is the date
    [d.setDate(d.getDate() + n)] leaves in [d] when [d] holds the time
    value [tv]. *)
Class CalendarHost := {
  Date_plusDays : Z -> Z -> Date.t
}.

(** In UTC a day has 86400000 ms; a time value beyond 8.64e15 ms on either
    side of the epoch is not a date. *)
Definition UTC_calendar : CalendarHost :=
  {| Date_plusDays := fun tv n =>
       let r := tv + n * UTC.msPerDay in
       if Z.abs r <=? 8640000000000000 then Some r else None |}.

Section ListView.

Context `{host : DateHost} `{calendar : CalendarHost}.

(** The meetings counted on the "This Week" card. *)
Definition thisWeek (now : Z) (meetings : list Meeting.t) : list Meeting.t :=
  filter
    (fun m =>
       let meetingDate := Date.new (Meeting.startTime m) in
       let weekFromNow := Date_plusDays now 7 in
       Date_le meetingDate weekFromNow)
    (upcomingMeetings now meetings).

End ListView.

(** What [MeetingCard] shows of a meeting, field by field; [None] is a part
    that is not rendered. *)
Module MeetingCard.

(** The badge. *)
Definition badge (meeting : Meeting.t) : string :=
  if Platform_eqb (Meeting.platform meeting) google
  then "Google Meet" else "Microsoft Teams".

(** The attendee count next to the time. *)
Definition attendeeCount (meeting : Meeting.t) : string :=
  JS.toString (Z.of_nat (length (Meeting.attendees meeting))) ++ " attendees".

(** The line with the first addresses, rendered when there is an attendee. *)
Definition attendeeLine (meeting : Meeting.t) : option string :=
  let attendees := Meeting.attendees meeting in
  if (0 <? length attendees)%nat
  then Some (joinWith ", " (firstn 2 attendees)
             ++ (if (2 <? length attendees)%nat
                 then " +" ++ JS.toString (Z.of_nat (length attendees) - 2)
                           ++ " more"
                 else ""))
  else None.

(** The target of the "View Event" button. *)
Definition viewEvent (meeting : Meeting.t) : option string :=
  if JS.truthy (Meeting.meetingLink meeting)
  then Meeting.meetingLink meeting else None.

(** The target of the "Join Meeting" button. *)
Definition joinMeeting (meeting : Meeting.t) (isPast : bool) : option string :=
  if (JS.truthy (Meeting.joinUrl meeting) && negb isPast)%bool
  then Meeting.joinUrl meeting else None.

End MeetingCard.

(** The content of a tab: the placeholder, or the cards with their
    [isPast] flag. *)
Inductive tabContent :=
| placeholder
| cards (shown : list (Meeting.t * bool)).

Section TabsContent.

Context `{host : DateHost}.

Definition upcomingTab (now : Z) (meetings : list Meeting.t) : tabContent :=
  if (length (upcomingMeetings now meetings) =? 0)%nat then placeholder
  else cards (map (fun meeting => (meeting, false)) (upcomingMeetings now meetings)).

Definition pastTab (now : Z) (meetings : list Meeting.t) : tabContent :=
  if (length (pastMeetings now meetings) =? 0)%nat then placeholder
  else cards (map (fun meeting => (meeting, true)) (pastMeetings now meetings)).

End TabsContent.

(** A text made of commas and white space only. *)
Fixpoint onlySeparators (s : string) : bool :=
  match s with
  | EmptyString => true
  | String c s' =>
      ((Ascii.eqb c "," || JS.isWhiteSpace c) && onlySeparators s')%bool
  end.

(** An address as the parse leaves it: not empty, without comma, without
    white space around it. *)
Definition clean (a : string) : Prop :=
  a <> ""
  /\ contains "," a = false
  /\ startsWithWhiteSpace a = false
  /\ endsWithWhiteSpace a = false.

(** ** The string built-ins *)

Section Strings.

Variable sep : ascii.

Lemma split_not_nil (s : string) : JS.split sep s <> [].
Proof.
  destruct s as [|c s]; simpl; [discriminate|].
  destruct (Ascii.eqb c sep); [discriminate|].
  destruct (JS.split sep s); discriminate.
Qed.

Lemma join_cons (p : string) (ps : list string) :
  ps <> [] -> JS.join sep (p :: ps) = p ++ String sep (JS.join sep ps).
Proof. destruct ps; [congruence | reflexivity]. Qed.

Lemma join_split (s : string) : JS.join sep (JS.split sep s) = s.
Proof.
  induction s as [|c s IH]; simpl; [reflexivity|].
  destruct (Ascii.eqb c sep) eqn:E.
  - apply Ascii.eqb_eq in E; subst c.
    rewrite join_cons by apply split_not_nil.
    simpl; now rewrite IH.
  - pose proof (split_not_nil s) as N.
    destruct (JS.split sep s) as [|q qs]; [congruence|].
    destruct qs as [|q' qs]; simpl in *; now rewrite IH.
Qed.

Lemma split_free (s : string) :
  Forall (fun p => contains sep p = false) (JS.split sep s).
Proof.
  induction s as [|c s IH]; simpl.
  - repeat constructor.
  - destruct (Ascii.eqb c sep) eqn:E.
    + constructor; [reflexivity | exact IH].
    + destruct (JS.split sep s) as [|q qs].
      * repeat constructor; simpl; now rewrite E.
      * inversion IH; subst.
        constructor; [simpl; rewrite E; assumption | assumption].
Qed.

End Strings.

Lemma trimStart_spec (s : string) :
  exists l, s = l ++ JS.trimStart s
            /\ allWhiteSpace l = true
            /\ startsWithWhiteSpace (JS.trimStart s) = false.
Proof.
  induction s as [|c s (l & E & Hl & Hs)]; simpl.
  - exists EmptyString; auto.
  - destruct (JS.isWhiteSpace c) eqn:W.
    + exists (String c l); simpl; rewrite W, <- E; auto.
    + exists EmptyString; simpl; auto.
Qed.

Lemma trimEnd_spec (s : string) :
  exists r, s = JS.trimEnd s ++ r
            /\ allWhiteSpace r = true
            /\ endsWithWhiteSpace (JS.trimEnd s) = false.
Proof.
  induction s as [|c s (r & E & Hr & He)]; simpl.
  - exists EmptyString; auto.
  - destruct (JS.trimEnd s) as [|a b] eqn:T.
    + simpl in E; subst r.
      destruct (JS.isWhiteSpace c) eqn:W.
      * exists (String c s); simpl; rewrite W; auto.
      * exists s; simpl; auto.
    + exists r; repeat split; auto.
      change (String c s = String c (String a b ++ r)); now f_equal.
Qed.

Lemma trimEnd_start (s : string) :
  startsWithWhiteSpace s = false -> startsWithWhiteSpace (JS.trimEnd s) = false.
Proof.
  destruct s as [|c s]; simpl; [auto|]; intros W.
  destruct (JS.trimEnd s); [rewrite W|]; auto.
Qed.

Lemma trim_trimmedOf (s : string) : trimmedOf s (JS.trim s).
Proof.
  unfold JS.trim.
  destruct (trimStart_spec s) as (l & E & Hl & Hs).
  destruct (trimEnd_spec (JS.trimStart s)) as (r & E' & Hr & He).
  exists l, r; repeat split; auto using trimEnd_start.
  now rewrite <- E'.
Qed.

Lemma Boolean_nonEmpty (s : string) : JS.Boolean s = nonEmpty s.
Proof. now destruct s. Qed.

(** The description by [trimmedOf] leaves no choice: the core of a piece
    is what [trim] returns. *)

Lemma trimStart_allWhiteSpace (s : string) :
  allWhiteSpace s = true -> JS.trimStart s = "".
Proof.
  induction s as [|c s IH]; simpl; [reflexivity|].
  intros [W A]%andb_true_iff. rewrite W. auto.
Qed.

Lemma trimEnd_allWhiteSpace (s : string) :
  allWhiteSpace s = true -> JS.trimEnd s = "".
Proof.
  induction s as [|c s IH]; simpl; [reflexivity|].
  intros [W A]%andb_true_iff. rewrite (IH A), W. reflexivity.
Qed.

Lemma trimStart_app (l s : string) :
  allWhiteSpace l = true -> JS.trimStart (l ++ s) = JS.trimStart s.
Proof.
  induction l as [|c l IH]; simpl; [reflexivity|].
  intros [W A]%andb_true_iff. rewrite W. auto.
Qed.

Lemma trimEnd_app (c r : string) :
  allWhiteSpace r = true -> endsWithWhiteSpace c = false ->
  JS.trimEnd (c ++ r) = c.
Proof.
  intros Hr. induction c as [|a c IH]; intros He.
  - now apply trimEnd_allWhiteSpace.
  - change (JS.trimEnd (String a c ++ r))
      with (match JS.trimEnd (c ++ r) with
            | EmptyString => if JS.isWhiteSpace a then EmptyString
                             else String a EmptyString
            | String _ _ as t => String a t
            end).
    destruct c as [|b c].
    + simpl in He |- *. rewrite (trimEnd_allWhiteSpace _ Hr), He. reflexivity.
    + rewrite IH by exact He. reflexivity.
Qed.

Lemma trimmedOf_trim (piece core : string) :
  trimmedOf piece core -> core = JS.trim piece.
Proof.
  intros (l & r & -> & Hl & Hr & Hs & He).
  unfold JS.trim. rewrite trimStart_app by exact Hl.
  destruct core as [|a c].
  - simpl. now rewrite trimStart_allWhiteSpace.
  - simpl in Hs. change (String a c ++ r) with (String a (c ++ r)).
    cbn [JS.trimStart]. rewrite Hs.
    change (String a (c ++ r)) with (String a c ++ r).
    now rewrite trimEnd_app.
Qed.

(** Likewise the cut at the separators: comma-free pieces that join to a
    text are the pieces [split] finds. *)

Section Cut.

Variable sep : ascii.

Lemma split_free_piece (p : string) :
  contains sep p = false -> JS.split sep p = [p].
Proof.
  induction p as [|c p IH]; simpl; [reflexivity|].
  intros [E F]%orb_false_iff. rewrite E, (IH F). reflexivity.
Qed.

Lemma split_app (p rest : string) :
  contains sep p = false ->
  JS.split sep (p ++ String sep rest) = p :: JS.split sep rest.
Proof.
  induction p as [|c p IH]; simpl.
  - now rewrite Ascii.eqb_refl.
  - intros [E F]%orb_false_iff. rewrite E, (IH F). reflexivity.
Qed.

Lemma split_join (pieces : list string) :
  pieces <> [] ->
  Forall (fun p => contains sep p = false) pieces ->
  JS.split sep (JS.join sep pieces) = pieces.
Proof.
  induction pieces as [|p ps IH]; [congruence|].
  intros _ F. inversion F as [|? ? Fp Fps]; subst.
  destruct ps as [|q qs].
  - now apply split_free_piece.
  - rewrite join_cons by discriminate.
    rewrite split_app by exact Fp.
    f_equal. apply IH; [discriminate | exact Fps].
Qed.

End Cut.

Lemma attendeesList_determined
    (data : FormData.t) (pieces cores : list string) :
  JS.join "," pieces = FormData.attendees data ->
  Forall (fun p => contains "," p = false) pieces ->
  Forall2 trimmedOf pieces cores ->
  filter nonEmpty cores = attendeesList data.
Proof.
  intros J F T. unfold attendeesList. rewrite <- J.
  assert (C : cores = map JS.trim pieces).
  { clear J F. induction T as [|p c ps cs Hpc _ IH]; simpl;
      [reflexivity | f_equal; auto using trimmedOf_trim]. }
  subst cores.
  destruct pieces as [|p ps]; [reflexivity|].
  rewrite split_join by (discriminate || exact F).
  symmetry. apply filter_ext, Boolean_nonEmpty.
Qed.

(** ** Attendee parsing *)

(** C4: the attendee list is obtained by cutting the raw text at its commas
    (the pieces are comma-free and, joined by commas, give the text back),
    removing the white space around each piece, and keeping the non-empty
    results in their order; a concrete run yields the two addresses. *)
Theorem attendeesList_splits_trims_drops_empty :
  (forall data : FormData.t,
      exists pieces cores : list string,
        JS.join "," pieces = FormData.attendees data
        /\ Forall (fun p => contains "," p = false) pieces
        /\ Forall2 trimmedOf pieces cores
        /\ attendeesList data = filter nonEmpty cores)
  /\ (forall (title description startTime endTime : string) (platform : Platform),
        attendeesList
          {| FormData.title := title;
             FormData.description := description;
             FormData.startTime := startTime;
             FormData.endTime := endTime;
             FormData.attendees := "a@x.com, , b@y.com ,";
             FormData.platform := platform |}
        = ["a@x.com"; "b@y.com"]).
Proof.
  split.
  - intros data.
    exists (JS.split "," (FormData.attendees data)),
           (map JS.trim (JS.split "," (FormData.attendees data))).
    split; [apply join_split|].
    split; [apply split_free|].
    split.
    + induction (JS.split "," (FormData.attendees data)); simpl;
        constructor; auto using trim_trimmedOf.
    + unfold attendeesList. apply filter_ext, Boolean_nonEmpty.
  - reflexivity.
Qed.

(** ** Page bookkeeping *)

Lemma Boolean_true (s : string) : s <> "" -> JS.Boolean s = true.
Proof. destruct s; [congruence | reflexivity]. Qed.

Lemma Boolean_false (s : string) : s = "" -> JS.Boolean s = false.
Proof. now intros ->. Qed.

Lemma Status_eqb_eq (a b : Status) : Status_eqb a b = true <-> a = b.
Proof. destruct a, b; simpl; split; congruence. Qed.

Lemma calls_notify (n : toast.t) (p : Page) : calls (notify n p) = calls p.
Proof. reflexivity. Qed.

Lemma calls_onError (error : Error.t) (p : Page) :
  calls (onError error p) = calls p.
Proof.
  unfold onError.
  destruct (JS.includes _ _); reflexivity.
Qed.

(** ** Validation *)

(** C1: when the title, the start time or the end time of the draft is the
    empty string, the creation handler only shows the validation error: the
    page is otherwise unchanged and no creation call is issued. *)
Theorem handleCreateMeeting_missing_required_field
    `{host : DateHost} (currentUser : option User.t) (p : Page) :
  FormData.title (formData p) = ""
  \/ FormData.startTime (formData p) = ""
  \/ FormData.endTime (formData p) = "" ->
  handleCreateMeeting currentUser p
  = notify (toast.error "Please fill in all required fields") p
  /\ toasts (handleCreateMeeting currentUser p)
     = (toasts p ++ [toast.error "Please fill in all required fields"])%list
  /\ calls (handleCreateMeeting currentUser p) = calls p.
Proof.
  intros Hmissing.
  assert (E : handleCreateMeeting currentUser p
              = notify (toast.error "Please fill in all required fields") p).
  { unfold handleCreateMeeting.
    destruct Hmissing as [E | [E | E]]; rewrite (Boolean_false _ E); simpl;
      rewrite ?orb_true_r; reflexivity. }
  rewrite E; repeat split.
Qed.

Lemma handleCreateMeeting_missing_required_field_witness :
  FormData.title (formData (Sample.page Sample.blank)) = ""
  /\ calls (handleCreateMeeting (host := UTC.host) None (Sample.page Sample.blank)) = []
  /\ toasts (handleCreateMeeting (host := UTC.host) None (Sample.page Sample.blank))
     = [toast.error "Please fill in all required fields"].
Proof.
  split; [reflexivity|].
  destruct (handleCreateMeeting_missing_required_field
              (host := UTC.host) None (Sample.page Sample.blank)
              (or_introl eq_refl)) as (_ & Ht & Hc).
  split; [exact Hc | exact Ht].
Defined.

(** ** The success handler *)

(** C2: the success handler puts exactly one new meeting, with status
    [scheduled], in front of the previous list, which follows it unchanged;
    it closes the dialog and resets every field of the form. *)
Theorem onSuccess_prepends_closes_resets
    (response : Response.t) (variables : FormData.t) (now : Z) (p : Page) :
  exists newMeeting : Meeting.t,
    meetings (onSuccess response variables now p) = newMeeting :: meetings p
    /\ Meeting.status newMeeting = scheduled
    /\ length (meetings (onSuccess response variables now p))
       = S (length (meetings p))
    /\ isCreateDialogOpen (onSuccess response variables now p) = false
    /\ formData (onSuccess response variables now p)
       = {| FormData.title := "";
            FormData.description := "";
            FormData.startTime := "";
            FormData.endTime := "";
            FormData.attendees := "";
            FormData.platform := google |}.
Proof.
  eexists; repeat split.
Qed.

(** ** Dispatch *)

Lemma mutationFn_valid `{host : DateHost} (data : FormData.t) (s e : Z) :
  Date.new (FormData.startTime data) = Some s ->
  Date.new (FormData.endTime data) = Some e ->
  mutationFn data
  = inr (let payload :=
           {| Payload.title := FormData.title data;
              Payload.description := FormData.description data;
              Payload.startTime := Date_print s;
              Payload.endTime := Date_print e;
              Payload.attendees := attendeesList data |} in
         match FormData.platform data with
         | google => IntegrationService.createGoogleMeeting payload
         | teams => IntegrationService.createTeamsMeeting payload
         end).
Proof.
  intros Hs He. unfold mutationFn. rewrite Hs, He. simpl.
  destruct (FormData.platform data); reflexivity.
Qed.

Lemma mutationFn_invalid `{host : DateHost} (data : FormData.t) :
  Date.new (FormData.startTime data) = None
  \/ Date.new (FormData.endTime data) = None ->
  mutationFn data
  = inl {| Error.response := None; Error.message := Some RangeError_message |}.
Proof.
  unfold mutationFn. intros [E | E]; rewrite E; simpl; [reflexivity|].
  destruct (Date.new (FormData.startTime data)); reflexivity.
Qed.

Lemma calls_mutate `{host : DateHost} (variables : FormData.t) (p : Page) :
  calls (mutate variables p)
  = match mutationFn variables with
    | inl _ => calls p
    | inr call => (calls p ++ [call])%list
    end.
Proof.
  unfold mutate. destruct (mutationFn variables); [apply calls_onError | reflexivity].
Qed.

(** C3, as stated, fails: a draft with all three required fields filled in
    whose start time is not a date passes validation, and the handler then
    issues no creation call; the [RangeError] is shown instead. *)
Lemma valid_draft_without_call :
  FormData.title (Sample.draft "tomorrow" "2024-01-01T11:00" google) <> ""
  /\ FormData.startTime (Sample.draft "tomorrow" "2024-01-01T11:00" google) <> ""
  /\ FormData.endTime (Sample.draft "tomorrow" "2024-01-01T11:00" google) <> ""
  /\ calls (handleCreateMeeting (host := UTC.host) None
              (Sample.page (Sample.draft "tomorrow" "2024-01-01T11:00" google)))
     = []
  /\ toasts (handleCreateMeeting (host := UTC.host) None
               (Sample.page (Sample.draft "tomorrow" "2024-01-01T11:00" google)))
     = [toast.error "Invalid time value"].
Proof.
  repeat split; try discriminate.
Qed.

(** C3, amended: for a draft that passes validation and whose start and end
    times are dates, the handler issues exactly one creation call, after
    those issued before: the Google call when the platform is [google], the
    Teams call otherwise, with the title, the description, the two times in
    ISO form and the parsed attendees. *)
Theorem handleCreateMeeting_dispatches_by_platform
    `{host : DateHost} (currentUser : option User.t) (p : Page) (s e : Z) :
  FormData.title (formData p) <> "" ->
  FormData.startTime (formData p) <> "" ->
  FormData.endTime (formData p) <> "" ->
  Date.new (FormData.startTime (formData p)) = Some s ->
  Date.new (FormData.endTime (formData p)) = Some e ->
  let payload :=
    {| Payload.title := FormData.title (formData p);
       Payload.description := FormData.description (formData p);
       Payload.startTime := Date_print s;
       Payload.endTime := Date_print e;
       Payload.attendees := attendeesList (formData p) |} in
  calls (handleCreateMeeting currentUser p)
  = (calls p
       ++ [match FormData.platform (formData p) with
           | google => IntegrationService.createGoogleMeeting payload
           | teams => IntegrationService.createTeamsMeeting payload
           end])%list.
Proof.
  intros Ht Hs He Ds De payload.
  unfold handleCreateMeeting.
  rewrite (Boolean_true _ Ht), (Boolean_true _ Hs), (Boolean_true _ He).
  cbn [negb orb]. cbv zeta.
  destruct (Platform_eqb _ _ && _)%bool;
    rewrite calls_mutate, (mutationFn_valid _ s e Ds De); reflexivity.
Qed.

Lemma handleCreateMeeting_dispatches_by_platform_witness :
  calls (handleCreateMeeting (host := UTC.host) None
           (Sample.page (Sample.draft "2024-01-01T11:00" "2024-01-01T12:00" teams)))
  = [IntegrationService.createTeamsMeeting
       {| Payload.title := "Sprint Planning Meeting";
          Payload.description := "";
          Payload.startTime := "2024-01-01T11:00:00.000Z";
          Payload.endTime := "2024-01-01T12:00:00.000Z";
          Payload.attendees := ["a@x.com"; "b@y.com"] |}].
Proof.
  apply (handleCreateMeeting_dispatches_by_platform (host := UTC.host) None
           (Sample.page (Sample.draft "2024-01-01T11:00" "2024-01-01T12:00" teams))
           1704106800000 1704110400000);
    solve [discriminate | reflexivity].
Defined.

(** ** The two tabs *)

Section Tabs.

Context `{host : DateHost}.

Lemma upcomingMeetings_In (now : Z) (ms : list Meeting.t) (m : Meeting.t) :
  In m (upcomingMeetings now ms)
  <-> In m ms
      /\ Meeting.status m = scheduled
      /\ Date.gt (Date.new (Meeting.startTime m)) (Date.current now) = true.
Proof.
  unfold upcomingMeetings.
  rewrite filter_In, andb_true_iff, Status_eqb_eq. tauto.
Qed.

Lemma pastMeetings_In (now : Z) (ms : list Meeting.t) (m : Meeting.t) :
  In m (pastMeetings now ms)
  <-> In m ms
      /\ (Meeting.status m = completed
          \/ Date.lt (Date.new (Meeting.endTime m)) (Date.current now) = true).
Proof.
  unfold pastMeetings.
  rewrite filter_In, orb_true_iff, Status_eqb_eq. tauto.
Qed.

Lemma Date_gt_Some (a now : Z) :
  Date.gt (Some a) (Date.current now) = true <-> now < a.
Proof. unfold Date.gt, Date.lt, Date.current. apply Z.ltb_lt. Qed.

Lemma Date_lt_Some (a now : Z) :
  Date.lt (Some a) (Date.current now) = true <-> a < now.
Proof. unfold Date.lt, Date.current. apply Z.ltb_lt. Qed.

End Tabs.

(** C5, as stated, fails: a scheduled meeting that starts one hour after
    the current time and whose end time lies before the current time is
    listed under both tabs. *)
Lemma scheduled_in_one_hour_also_past :
  Meeting.status (Sample.meeting scheduled "2024-01-01T11:00" "2024-01-01T09:00")
  = scheduled
  /\ Date.new (host := UTC.host)
       (Meeting.startTime
          (Sample.meeting scheduled "2024-01-01T11:00" "2024-01-01T09:00"))
     = Some (Sample.now + 3600000)
  /\ In (Sample.meeting scheduled "2024-01-01T11:00" "2024-01-01T09:00")
        (upcomingMeetings (host := UTC.host) Sample.now
           [Sample.meeting scheduled "2024-01-01T11:00" "2024-01-01T09:00"])
  /\ In (Sample.meeting scheduled "2024-01-01T11:00" "2024-01-01T09:00")
        (pastMeetings (host := UTC.host) Sample.now
           [Sample.meeting scheduled "2024-01-01T11:00" "2024-01-01T09:00"]).
Proof.
  repeat split; left; reflexivity.
Qed.

(** C5, amended: a scheduled meeting of the list that starts one hour after
    the current time is listed as upcoming; it is listed as past exactly
    when its end time is before the current time, so it is not past when
    its end time is not before the current time. *)
Theorem scheduled_in_one_hour_is_upcoming
    `{host : DateHost} (now : Z) (ms : list Meeting.t) (m : Meeting.t) :
  In m ms ->
  Meeting.status m = scheduled ->
  Date.new (Meeting.startTime m) = Some (now + 3600000) ->
  In m (upcomingMeetings now ms)
  /\ (In m (pastMeetings now ms)
      <-> Date.lt (Date.new (Meeting.endTime m)) (Date.current now) = true).
Proof.
  intros Hin Hst Hstart. split.
  - apply upcomingMeetings_In. repeat split; auto.
    rewrite Hstart. apply Date_gt_Some. lia.
  - rewrite pastMeetings_In. rewrite Hst. split.
    + intros (_ & [D | L]); [discriminate | exact L].
    + auto.
Qed.

Lemma scheduled_in_one_hour_is_upcoming_witness :
  In (Sample.meeting scheduled "2024-01-01T11:00" "2024-01-01T12:00")
     (upcomingMeetings (host := UTC.host) Sample.now
        [Sample.meeting completed "2023-12-31T11:00" "2023-12-31T12:00";
         Sample.meeting scheduled "2024-01-01T11:00" "2024-01-01T12:00"])
  /\ ~ In (Sample.meeting scheduled "2024-01-01T11:00" "2024-01-01T12:00")
          (pastMeetings (host := UTC.host) Sample.now
             [Sample.meeting completed "2023-12-31T11:00" "2023-12-31T12:00";
              Sample.meeting scheduled "2024-01-01T11:00" "2024-01-01T12:00"]).
Proof.
  destruct (scheduled_in_one_hour_is_upcoming (host := UTC.host) Sample.now
              [Sample.meeting completed "2023-12-31T11:00" "2023-12-31T12:00";
               Sample.meeting scheduled "2024-01-01T11:00" "2024-01-01T12:00"]
              (Sample.meeting scheduled "2024-01-01T11:00" "2024-01-01T12:00")
              (or_intror (or_introl eq_refl)) eq_refl eq_refl) as [Hup Hpast].
  split; [exact Hup|].
  intros Hin. apply Hpast in Hin. discriminate Hin.
Defined.

(** C6: a scheduled meeting of the list whose start and end times are both
    before the current time is listed as past, through its end time: its
    status is not [completed]. *)
Theorem scheduled_ended_is_past
    `{host : DateHost} (now : Z) (ms : list Meeting.t) (m : Meeting.t) (s e : Z) :
  In m ms ->
  Meeting.status m = scheduled ->
  Date.new (Meeting.startTime m) = Some s -> s < now ->
  Date.new (Meeting.endTime m) = Some e -> e < now ->
  In m (pastMeetings now ms) /\ Meeting.status m <> completed.
Proof.
  intros Hin Hst _ _ He Hlt. split.
  - apply pastMeetings_In. split; [exact Hin|]. right.
    rewrite He. now apply Date_lt_Some.
  - rewrite Hst. discriminate.
Qed.

Lemma scheduled_ended_is_past_witness :
  In (Sample.meeting scheduled "2024-01-01T08:00" "2024-01-01T09:00")
     (pastMeetings (host := UTC.host) Sample.now
        [Sample.meeting scheduled "2024-01-01T08:00" "2024-01-01T09:00"]).
Proof.
  apply (scheduled_ended_is_past (host := UTC.host) Sample.now
           [Sample.meeting scheduled "2024-01-01T08:00" "2024-01-01T09:00"]
           (Sample.meeting scheduled "2024-01-01T08:00" "2024-01-01T09:00")
           1704096000000 1704099600000);
    solve [left; reflexivity | reflexivity].
Defined.

(** C9: a cancelled meeting that starts after the current time and whose
    end time is not before the current time is listed under neither tab. *)
Theorem cancelled_future_is_dropped
    `{host : DateHost} (now : Z) (ms : list Meeting.t) (m : Meeting.t) (s : Z) :
  Meeting.status m = cancelled ->
  Date.new (Meeting.startTime m) = Some s -> now < s ->
  Date.lt (Date.new (Meeting.endTime m)) (Date.current now) = false ->
  ~ In m (upcomingMeetings now ms) /\ ~ In m (pastMeetings now ms).
Proof.
  intros Hst _ _ Hend. split.
  - rewrite upcomingMeetings_In. intros (_ & D & _). congruence.
  - rewrite pastMeetings_In. intros (_ & [D | L]); congruence.
Qed.

Lemma cancelled_future_is_dropped_witness :
  In (Sample.meeting cancelled "2024-01-01T11:00" "2024-01-01T12:00")
     [Sample.meeting cancelled "2024-01-01T11:00" "2024-01-01T12:00"]
  /\ ~ In (Sample.meeting cancelled "2024-01-01T11:00" "2024-01-01T12:00")
          (upcomingMeetings (host := UTC.host) Sample.now
             [Sample.meeting cancelled "2024-01-01T11:00" "2024-01-01T12:00"])
  /\ ~ In (Sample.meeting cancelled "2024-01-01T11:00" "2024-01-01T12:00")
          (pastMeetings (host := UTC.host) Sample.now
             [Sample.meeting cancelled "2024-01-01T11:00" "2024-01-01T12:00"]).
Proof.
  split; [left; reflexivity|].
  apply (cancelled_future_is_dropped (host := UTC.host) Sample.now
           [Sample.meeting cancelled "2024-01-01T11:00" "2024-01-01T12:00"]
           (Sample.meeting cancelled "2024-01-01T11:00" "2024-01-01T12:00")
           1704106800000);
    reflexivity.
Defined.

(** ** The error handler *)

(** C7, as stated, fails: a rejection that carries no server-supplied error
    field but has a message of its own shows that message, not the generic
    one. *)
Lemma onError_without_server_field_shows_message :
  Error.response Sample.networkError ?. ErrorResponse.data ?. ErrorData.error = None
  /\ toasts (onError Sample.networkError (Sample.page Sample.blank))
     = [toast.error "Network Error"]
  /\ toasts (onError Sample.networkError (Sample.page Sample.blank))
     <> [toast.error "Failed to create meeting"].
Proof.
  repeat split. discriminate.
Qed.

(** C7, amended: the error handler shows one error notification.  Its text
    is the server-supplied error field when there is one and it is not the
    empty string; otherwise the error's own message when there is one and
    it is not the empty string; otherwise 'Failed to create meeting'.  The
    hint about the Microsoft account follows when the text contains
    'not connected'. *)
Theorem onError_shows_server_message_else_own_else_generic
    (error : Error.t) (p : Page) :
  let shown :=
    match Error.response error ?. ErrorResponse.data ?. ErrorData.error with
    | Some (String c s) => String c s
    | _ =>
        match Error.message error with
        | Some (String c s) => String c s
        | _ => "Failed to create meeting"
        end
    end in
  toasts (onError error p)
  = (toasts p
       ++ toast.error shown
       :: (if JS.includes shown "not connected"
           then [toast.info
                   "Please connect your Microsoft account in the Integrations tab."]
           else []))%list
  /\ calls (onError error p) = calls p
  /\ meetings (onError error p) = meetings p
  /\ isCreateDialogOpen (onError error p) = isCreateDialogOpen p.
Proof.
  intros shown.
  assert (E : JS.orElse
                (JS.or (Error.response error ?. ErrorResponse.data ?. ErrorData.error)
                       (Error.message error))
                "Failed to create meeting" = shown).
  { subst shown.
    destruct (Error.response error ?. ErrorResponse.data ?. ErrorData.error)
      as [[|c s]|]; destruct (Error.message error) as [[|c' s']|]; reflexivity. }
  unfold onError. rewrite E.
  destruct (JS.includes shown "not connected"); simpl;
    rewrite <- ?app_assoc; repeat split.
Qed.

(** ** Link extraction *)

(** C8, as stated, fails: a response whose top-level [meetingLink] is
    present but is the empty string stores the link found under [data]. *)
Lemma empty_top_level_link_is_skipped :
  Response.meetingLink Sample.nestedLink = Some ""
  /\ (exists newMeeting,
         meetings (onSuccess Sample.nestedLink
                     (Sample.draft "2024-01-01T11:00" "2024-01-01T12:00" google)
                     Sample.now (Sample.page Sample.blank))
         = [newMeeting]
         /\ Meeting.meetingLink newMeeting
            = Some "https://meet.google.com/abc-defg-hij"
         /\ Meeting.meetingLink newMeeting
            <> Response.meetingLink Sample.nestedLink).
Proof.
  split; [reflexivity|].
  eexists; repeat split. discriminate.
Qed.

(** C8, amended: the stored [meetingLink] is the top-level [meetingLink] of
    the response when that is present and not the empty string, and
    otherwise the [meetingLink] under [data] (none when there is no
    [data]); likewise for [joinUrl]. *)
Theorem onSuccess_link_extraction
    (response : Response.t) (variables : FormData.t) (now : Z) (p : Page) :
  exists newMeeting : Meeting.t,
    meetings (onSuccess response variables now p) = newMeeting :: meetings p
    /\ Meeting.meetingLink newMeeting
       = match Response.meetingLink response with
         | Some (String c s) => Some (String c s)
         | _ =>
             match Response.data response with
             | Some d => ResponseData.meetingLink d
             | None => None
             end
         end
    /\ Meeting.joinUrl newMeeting
       = match Response.joinUrl response with
         | Some (String c s) => Some (String c s)
         | _ =>
             match Response.data response with
             | Some d => ResponseData.joinUrl d
             | None => None
             end
         end.
Proof.
  eexists; split; [reflexivity|]. simpl. split.
  - destruct (Response.meetingLink response) as [[|c s]|]; reflexivity.
  - destruct (Response.joinUrl response) as [[|c s]|]; reflexivity.
Qed.

(** ** Payload and record agree on the attendees *)

(** C10: when the draft leads to a creation call, the attendees of its
    payload are the attendees of the meeting the success handler builds
    from the same draft; both are the attendee list of the draft. *)
Theorem payload_attendees_eq_meeting_attendees
    `{host : DateHost} (data : FormData.t) (call : IntegrationService.call)
    (response : Response.t) (now : Z) (p : Page) :
  mutationFn data = inr call ->
  exists newMeeting : Meeting.t,
    meetings (onSuccess response data now p) = newMeeting :: meetings p
    /\ Payload.attendees (IntegrationService.payload call)
       = Meeting.attendees newMeeting
    /\ Meeting.attendees newMeeting = attendeesList data.
Proof.
  intros Hcall.
  eexists; split; [reflexivity|]. simpl. split; [|reflexivity].
  unfold mutationFn in Hcall.
  destruct (Date.toISOString (Date.new (FormData.startTime data)));
    [discriminate|].
  destruct (Date.toISOString (Date.new (FormData.endTime data)));
    [discriminate|].
  destruct (Platform_eqb (FormData.platform data) google);
    injection Hcall as <-; reflexivity.
Qed.

Lemma payload_attendees_eq_meeting_attendees_witness :
  exists newMeeting : Meeting.t,
    meetings (onSuccess Sample.nestedLink
                (Sample.draft "2024-01-01T11:00" "2024-01-01T12:00" google)
                Sample.now (Sample.page Sample.blank))
    = newMeeting :: meetings (Sample.page Sample.blank)
    /\ ["a@x.com"; "b@y.com"] = Meeting.attendees newMeeting
    /\ Meeting.attendees newMeeting
       = attendeesList (Sample.draft "2024-01-01T11:00" "2024-01-01T12:00" google).
Proof.
  apply (payload_attendees_eq_meeting_attendees (host := UTC.host)
           (Sample.draft "2024-01-01T11:00" "2024-01-01T12:00" google)
           (IntegrationService.createGoogleMeeting
              {| Payload.title := "Sprint Planning Meeting";
                 Payload.description := "";
                 Payload.startTime := "2024-01-01T11:00:00.000Z";
                 Payload.endTime := "2024-01-01T12:00:00.000Z";
                 Payload.attendees := ["a@x.com"; "b@y.com"] |})
           Sample.nestedLink Sample.now (Sample.page Sample.blank)).
  reflexivity.
Defined.

(** ** More on the creation workflow *)

Section MoreWorkflow.

Context `{host : DateHost}.

Lemma handleCreateMeeting_valid (currentUser : option User.t) (p : Page) :
  FormData.title (formData p) <> "" ->
  FormData.startTime (formData p) <> "" ->
  FormData.endTime (formData p) <> "" ->
  handleCreateMeeting currentUser p
  = mutate (formData p)
      (if (Platform_eqb (FormData.platform (formData p)) teams
           && negb (truthyFlag
                      (currentUser ?. User.integrations
                                   ?. Integrations.microsoft
                                   ?. Microsoft.connected)))%bool
       then notify (toast.error "Microsoft Teams integration NOT connected") p
       else p).
Proof.
  intros Ht Hs He. unfold handleCreateMeeting.
  rewrite (Boolean_true _ Ht), (Boolean_true _ Hs), (Boolean_true _ He).
  reflexivity.
Qed.

Lemma toasts_mutate_valid (data : FormData.t) (p : Page) (s e : Z) :
  Date.new (FormData.startTime data) = Some s ->
  Date.new (FormData.endTime data) = Some e ->
  toasts (mutate data p) = toasts p.
Proof.
  intros Ds De. unfold mutate. now rewrite (mutationFn_valid _ s e Ds De).
Qed.

Lemma onError_frame (error : Error.t) (p : Page) :
  formData (onError error p) = formData p
  /\ meetings (onError error p) = meetings p
  /\ isCreateDialogOpen (onError error p) = isCreateDialogOpen p
  /\ selectedPlatform (onError error p) = selectedPlatform p
  /\ calls (onError error p) = calls p.
Proof.
  unfold onError. destruct (JS.includes _ _); repeat split.
Qed.

Lemma mutate_frame (data : FormData.t) (p : Page) :
  formData (mutate data p) = formData p
  /\ meetings (mutate data p) = meetings p
  /\ isCreateDialogOpen (mutate data p) = isCreateDialogOpen p
  /\ selectedPlatform (mutate data p) = selectedPlatform p.
Proof.
  unfold mutate. destruct (mutationFn data) as [error | call].
  - destruct (onError_frame error p) as (? & ? & ? & ? & _); auto.
  - repeat split.
Qed.

Lemma handleCreateMeeting_only_frame_aux
    (currentUser : option User.t) (p : Page) :
  formData (handleCreateMeeting currentUser p) = formData p
  /\ isCreateDialogOpen (handleCreateMeeting currentUser p) = isCreateDialogOpen p.
Proof.
  unfold handleCreateMeeting.
  destruct (negb _ || negb _ || negb _)%bool; [now split|].
  cbv zeta.
  match goal with
  | |- formData (mutate ?d ?q) = _ /\ _ =>
      destruct (mutate_frame d q) as (Mf & _ & Md & _); rewrite Mf, Md
  end.
  destruct (_ && _)%bool; now split.
Qed.

End MoreWorkflow.

(** X1: for a draft that passes validation and whose times are dates, the
    warning about the Teams integration is the only notification: it is
    shown when the platform is [teams] and the user's Microsoft integration
    is not reported connected, and a creation call is issued all the same. *)
Theorem handleCreateMeeting_warns_and_proceeds
    `{host : DateHost} (currentUser : option User.t) (p : Page) (s e : Z) :
  FormData.title (formData p) <> "" ->
  FormData.startTime (formData p) <> "" ->
  FormData.endTime (formData p) <> "" ->
  Date.new (FormData.startTime (formData p)) = Some s ->
  Date.new (FormData.endTime (formData p)) = Some e ->
  let connected :=
    match currentUser with
    | Some {| User.integrations :=
                Some {| Integrations.microsoft :=
                          Some {| Microsoft.connected := Some true |} |} |} => true
    | _ => false
    end in
  toasts (handleCreateMeeting currentUser p)
  = (toasts p
       ++ match FormData.platform (formData p) with
          | teams =>
              if connected then []
              else [toast.error "Microsoft Teams integration NOT connected"]
          | google => []
          end)%list
  /\ length (calls (handleCreateMeeting currentUser p)) = S (length (calls p)).
Proof.
  intros Ht Hs He Ds De connected.
  rewrite (handleCreateMeeting_valid _ _ Ht Hs He).
  assert (C : truthyFlag (currentUser ?. User.integrations
                                      ?. Integrations.microsoft
                                      ?. Microsoft.connected) = connected).
  { subst connected.
    repeat match goal with
           | |- context [match ?x with _ => _ end] => destruct x
           end; reflexivity. }
  rewrite C. split.
  - rewrite (toasts_mutate_valid _ _ s e Ds De).
    destruct (FormData.platform (formData p)), connected; simpl;
      now rewrite ?app_nil_r.
  - rewrite calls_mutate, (mutationFn_valid _ s e Ds De).
    rewrite length_app. simpl.
    destruct (_ && _)%bool; simpl; lia.
Qed.

Lemma handleCreateMeeting_warns_and_proceeds_witness :
  toasts (handleCreateMeeting (host := UTC.host)
            (Some {| User.integrations := None |})
            (Sample.page (Sample.draft "2024-01-01T11:00" "2024-01-01T12:00" teams)))
  = [toast.error "Microsoft Teams integration NOT connected"]
  /\ length (calls (handleCreateMeeting (host := UTC.host)
                      (Some {| User.integrations := None |})
                      (Sample.page
                         (Sample.draft "2024-01-01T11:00" "2024-01-01T12:00" teams))))
     = 1%nat.
Proof.
  apply (handleCreateMeeting_warns_and_proceeds (host := UTC.host)
           (Some {| User.integrations := None |})
           (Sample.page (Sample.draft "2024-01-01T11:00" "2024-01-01T12:00" teams))
           1704106800000 1704110400000);
    solve [discriminate | reflexivity].
Defined.

Ltac extends_log :=
  solve [ reflexivity
        | assumption
        | eexists; simpl; reflexivity
        | exists []; simpl; now rewrite app_nil_r ].

(** X2: whatever the draft and the user, the creation handler leaves the
    meeting list, the draft, the dialog and the selected platform as they
    are; it only adds to the notifications shown and to the calls issued. *)
Theorem handleCreateMeeting_only_notifies_and_calls
    `{host : DateHost} (currentUser : option User.t) (p : Page) :
  meetings (handleCreateMeeting currentUser p) = meetings p
  /\ formData (handleCreateMeeting currentUser p) = formData p
  /\ isCreateDialogOpen (handleCreateMeeting currentUser p) = isCreateDialogOpen p
  /\ selectedPlatform (handleCreateMeeting currentUser p) = selectedPlatform p
  /\ (exists shown, toasts (handleCreateMeeting currentUser p)
                    = (toasts p ++ shown)%list)
  /\ (exists issued, calls (handleCreateMeeting currentUser p)
                     = (calls p ++ issued)%list).
Proof.
  unfold handleCreateMeeting.
  destruct (negb _ || negb _ || negb _)%bool.
  - repeat (split; [extends_log|]); extends_log.
  - cbv zeta.
    set (q := if (_ && _)%bool then _ else p).
    assert (Q : meetings q = meetings p /\ formData q = formData p
                /\ isCreateDialogOpen q = isCreateDialogOpen p
                /\ selectedPlatform q = selectedPlatform p
                /\ calls q = calls p
                /\ exists w, toasts q = (toasts p ++ w)%list).
    { subst q. destruct (_ && _)%bool;
        repeat (split; [extends_log|]); extends_log. }
    destruct Q as (Qm & Qf & Qd & Qs & Qc & w & Qt).
    destruct (mutate_frame (formData p) q) as (Mf & Mm & Md & Ms).
    rewrite Mf, Mm, Md, Ms. repeat split; try assumption.
    + unfold mutate. destruct (mutationFn (formData p)) as [error | call].
      * unfold onError. destruct (JS.includes _ _); simpl; rewrite Qt;
          rewrite <- ?app_assoc; eexists; reflexivity.
      * simpl. now exists w.
    + rewrite calls_mutate, Qc.
      destruct (mutationFn (formData p)); extends_log.
Qed.

(** X3: a draft that passes validation but whose start or end time is not
    a date is rejected before any call: no creation call is issued, the
    dialog and the draft stay as they are, and an error notification with
    the message of the [RangeError] (the generic text when that message is
    empty) is shown. *)
Theorem handleCreateMeeting_invalid_date
    `{host : DateHost} (currentUser : option User.t) (p : Page) :
  FormData.title (formData p) <> "" ->
  FormData.startTime (formData p) <> "" ->
  FormData.endTime (formData p) <> "" ->
  Date.new (FormData.startTime (formData p)) = None
  \/ Date.new (FormData.endTime (formData p)) = None ->
  calls (handleCreateMeeting currentUser p) = calls p
  /\ In (toast.error
           (match RangeError_message with
            | EmptyString => "Failed to create meeting"
            | String c m => String c m
            end))
        (toasts (handleCreateMeeting currentUser p))
  /\ isCreateDialogOpen (handleCreateMeeting currentUser p) = isCreateDialogOpen p
  /\ formData (handleCreateMeeting currentUser p) = formData p.
Proof.
  intros Ht Hs He Hd.
  destruct (handleCreateMeeting_only_frame_aux currentUser p) as (Ff & Fd).
  rewrite Ff, Fd.
  rewrite (handleCreateMeeting_valid _ _ Ht Hs He).
  set (q := if (_ && _)%bool then _ else p).
  assert (Qc : calls q = calls p) by (subst q; now destruct (_ && _)%bool).
  split; [|split; [|split; reflexivity]].
  - rewrite calls_mutate, (mutationFn_invalid _ Hd). exact Qc.
  - unfold mutate. rewrite (mutationFn_invalid _ Hd).
    unfold onError. cbn [Error.response Error.message JS.chain JS.or JS.truthy].
    destruct RangeError_message as [|c m] eqn:R; cbn [JS.Boolean JS.orElse];
      destruct (JS.includes _ _); cbn [toasts notify];
      rewrite ?in_app_iff; simpl; auto.
Qed.

Lemma handleCreateMeeting_invalid_date_witness :
  calls (handleCreateMeeting (host := UTC.host) None
           (Sample.page (Sample.draft "2024-01-01T11:00" "next week" teams)))
  = []
  /\ In (toast.error "Invalid time value")
        (toasts (handleCreateMeeting (host := UTC.host) None
                   (Sample.page (Sample.draft "2024-01-01T11:00" "next week" teams)))).
Proof.
  destruct (handleCreateMeeting_invalid_date (host := UTC.host) None
              (Sample.page (Sample.draft "2024-01-01T11:00" "next week" teams)))
    as (Hc & Ht & _); try discriminate.
  - right; reflexivity.
  - split; [exact Hc | exact Ht].
Defined.

Lemma calls_handleCreateMeeting_valid
    `{host : DateHost} (currentUser : option User.t) (p : Page) (s e : Z) :
  FormData.title (formData p) <> "" ->
  FormData.startTime (formData p) <> "" ->
  FormData.endTime (formData p) <> "" ->
  Date.new (FormData.startTime (formData p)) = Some s ->
  Date.new (FormData.endTime (formData p)) = Some e ->
  exists call,
    mutationFn (formData p) = inr call
    /\ calls (handleCreateMeeting currentUser p) = (calls p ++ [call])%list.
Proof.
  intros Ht Hs He Ds De.
  eexists; split; [apply (mutationFn_valid _ s e Ds De)|].
  rewrite (handleCreateMeeting_valid _ _ Ht Hs He), calls_mutate.
  rewrite (mutationFn_valid _ s e Ds De).
  now destruct (_ && _)%bool.
Qed.

(** X4: a rejection leaves the draft in place, so submitting again after
    the error handler has run issues the very same creation call a second
    time. *)
Theorem retry_after_rejection_repeats_the_call
    `{host : DateHost} (currentUser : option User.t) (error : Error.t)
    (p : Page) (s e : Z) :
  FormData.title (formData p) <> "" ->
  FormData.startTime (formData p) <> "" ->
  FormData.endTime (formData p) <> "" ->
  Date.new (FormData.startTime (formData p)) = Some s ->
  Date.new (FormData.endTime (formData p)) = Some e ->
  exists call,
    calls (handleCreateMeeting currentUser p) = (calls p ++ [call])%list
    /\ calls (handleCreateMeeting currentUser
                (onError error (handleCreateMeeting currentUser p)))
       = (calls p ++ [call; call])%list.
Proof.
  intros Ht Hs He Ds De.
  destruct (calls_handleCreateMeeting_valid currentUser p s e Ht Hs He Ds De)
    as (call & Hm & Hc).
  exists call. split; [exact Hc|].
  set (p1 := handleCreateMeeting currentUser p) in *.
  assert (F : formData (onError error p1) = formData p).
  { destruct (onError_frame error p1) as (F & _). rewrite F.
    apply (handleCreateMeeting_only_frame_aux currentUser p). }
  destruct (calls_handleCreateMeeting_valid currentUser (onError error p1) s e)
    as (call' & Hm' & Hc'); rewrite ?F; auto.
  rewrite F in Hm'. rewrite Hm in Hm'. injection Hm' as <-.
  rewrite Hc', calls_onError, Hc, <- app_assoc. reflexivity.
Qed.

Lemma retry_after_rejection_repeats_the_call_witness :
  exists call,
    calls (handleCreateMeeting (host := UTC.host) None
             (Sample.page (Sample.draft "2024-01-01T11:00" "2024-01-01T12:00" google)))
    = ([] ++ [call])%list
    /\ calls (handleCreateMeeting (host := UTC.host) None
                (onError Sample.networkError
                   (handleCreateMeeting (host := UTC.host) None
                      (Sample.page
                         (Sample.draft "2024-01-01T11:00" "2024-01-01T12:00" google)))))
       = ([] ++ [call; call])%list.
Proof.
  apply (retry_after_rejection_repeats_the_call (host := UTC.host) None
           Sample.networkError
           (Sample.page (Sample.draft "2024-01-01T11:00" "2024-01-01T12:00" google))
           1704106800000 1704110400000);
    solve [discriminate | reflexivity].
Defined.

(** X5: after a successful creation the form is empty again, so pressing
    the create button once more only shows the validation error: no second
    call is issued and the list keeps the one new meeting. *)
Theorem resubmit_after_success_is_blocked
    `{host : DateHost} (currentUser : option User.t) (response : Response.t)
    (variables : FormData.t) (now : Z) (p : Page) :
  handleCreateMeeting currentUser (onSuccess response variables now p)
  = notify (toast.error "Please fill in all required fields")
      (onSuccess response variables now p)
  /\ calls (handleCreateMeeting currentUser (onSuccess response variables now p))
     = calls p
  /\ length (meetings (handleCreateMeeting currentUser
                         (onSuccess response variables now p)))
     = S (length (meetings p)).
Proof.
  repeat split.
Qed.

(** X6: a draft typed through the controls of the dialog is what is sent:
    with a title and two times that are dates, the call goes to the chosen
    platform with the typed title and description, the two times in ISO
    form and the parsed attendees, whatever the form held before. *)
Theorem typed_draft_is_sent
    `{host : DateHost} (currentUser : option User.t) (p : Page)
    (platform : Platform) (title description startTime endTime attendees : string)
    (s e : Z) :
  title <> "" -> startTime <> "" -> endTime <> "" ->
  Date.new startTime = Some s -> Date.new endTime = Some e ->
  let payload :=
    {| Payload.title := title;
       Payload.description := description;
       Payload.startTime := Date_print s;
       Payload.endTime := Date_print e;
       Payload.attendees :=
         filter JS.Boolean (map JS.trim (JS.split "," attendees)) |} in
  calls (handleCreateMeeting currentUser
           (onAttendeesChange attendees
              (onEndTimeChange endTime
                 (onStartTimeChange startTime
                    (onDescriptionChange description
                       (onTitleChange title
                          (onPlatformChange platform p)))))))
  = (calls p
       ++ [match platform with
           | google => IntegrationService.createGoogleMeeting payload
           | teams => IntegrationService.createTeamsMeeting payload
           end])%list.
Proof.
  intros Ht Hs He Ds De payload.
  set (q := onAttendeesChange _ _).
  destruct (calls_handleCreateMeeting_valid currentUser q s e)
    as (call & Hm & Hc); try assumption.
  rewrite Hc. change (calls q) with (calls p). f_equal. f_equal.
  rewrite (mutationFn_valid (formData q) s e Ds De) in Hm.
  injection Hm as <-. now destruct platform.
Qed.

Lemma typed_draft_is_sent_witness :
  calls (handleCreateMeeting (host := UTC.host) None
           (onAttendeesChange "john@example.com, sarah@example.com"
              (onEndTimeChange "2024-01-01T12:00"
                 (onStartTimeChange "2024-01-01T11:00"
                    (onDescriptionChange "Agenda"
                       (onTitleChange "Retro"
                          (onPlatformChange teams (Sample.page Sample.blank))))))))
  = [IntegrationService.createTeamsMeeting
       {| Payload.title := "Retro";
          Payload.description := "Agenda";
          Payload.startTime := "2024-01-01T11:00:00.000Z";
          Payload.endTime := "2024-01-01T12:00:00.000Z";
          Payload.attendees := ["john@example.com"; "sarah@example.com"] |}].
Proof.
  apply (typed_draft_is_sent (host := UTC.host) None (Sample.page Sample.blank)
           teams "Retro" "Agenda" "2024-01-01T11:00" "2024-01-01T12:00"
           "john@example.com, sarah@example.com" 1704106800000 1704110400000);
    solve [discriminate | reflexivity].
Defined.

(** ** Meeting ids *)

Lemma toString_inj (a b : Z) : JS.toString a = JS.toString b -> a = b.
Proof.
  unfold JS.toString. intros E.
  assert (N : forall z, NilZero.int_of_string (NilZero.string_of_int (Z.to_int z))
                        = Some (Z.to_int z)).
  { intros z. apply NilZero.isi; destruct z; simpl; try discriminate;
      intros [= H]; apply (DecimalPos.Unsigned.to_uint_nonnil _ H). }
  pose proof (N a) as Ha. rewrite E, N in Ha. injection Ha as Ha.
  rewrite <- (DecimalZ.of_to a), <- (DecimalZ.of_to b). now f_equal.
Qed.

(** X7: of two meetings created one after the other, the later one is
    listed first, and the two have the same id exactly when both were
    created at the same clock reading. *)
Theorem ids_differ_unless_same_clock_reading
    (response1 response2 : Response.t) (variables1 variables2 : FormData.t)
    (now1 now2 : Z) (p : Page) :
  exists first second : Meeting.t,
    meetings (onSuccess response2 variables2 now2
                (onSuccess response1 variables1 now1 p))
    = second :: first :: meetings p
    /\ (Meeting.id first = Meeting.id second <-> now1 = now2).
Proof.
  do 2 eexists; split; [reflexivity|]. simpl. split.
  - apply toString_inj.
  - now intros ->.
Qed.

(** ** More on attendee parsing *)

Lemma append_empty_r (s : string) : s ++ "" = s.
Proof. induction s; simpl; congruence. Qed.

Lemma contains_app (c : ascii) (a b : string) :
  contains c (a ++ b) = (contains c a || contains c b)%bool.
Proof.
  induction a as [|x a IH]; simpl; [reflexivity|].
  now rewrite IH, orb_assoc.
Qed.

Lemma allWhiteSpace_app (a b : string) :
  allWhiteSpace (a ++ b) = (allWhiteSpace a && allWhiteSpace b)%bool.
Proof.
  induction a as [|x a IH]; simpl; [reflexivity|].
  now rewrite IH, andb_assoc.
Qed.

Lemma trim_free (c : ascii) (p : string) :
  contains c p = false -> contains c (JS.trim p) = false.
Proof.
  destruct (trim_trimmedOf p) as (l & r & E & _).
  intros F. rewrite E in F. rewrite !contains_app in F.
  apply orb_false_iff in F as (_ & F). now apply orb_false_iff in F as (F & _).
Qed.

Lemma trim_clean (p : string) :
  contains "," p = false -> JS.Boolean (JS.trim p) = true -> clean (JS.trim p).
Proof.
  intros F B. destruct (trim_trimmedOf p) as (l & r & _ & _ & _ & Hs & He).
  repeat split; auto using trim_free.
  intros E. rewrite E in B. discriminate.
Qed.

Lemma clean_trim (a : string) : clean a -> JS.trim a = a.
Proof.
  intros (_ & _ & Hs & He). symmetry. apply trimmedOf_trim.
  exists "", "". rewrite append_empty_r. repeat split; auto.
Qed.

Lemma clean_Boolean (a : string) : clean a -> JS.Boolean a = true.
Proof. intros (N & _). now apply Boolean_true. Qed.

Lemma attendeesList_clean (data : FormData.t) : Forall clean (attendeesList data).
Proof.
  unfold attendeesList. apply Forall_forall. intros a [Hin B]%filter_In.
  apply in_map_iff in Hin as (p & <- & Hp).
  apply trim_clean; [|exact B].
  pose proof (split_free "," (FormData.attendees data)) as F.
  rewrite Forall_forall in F. now apply F.
Qed.

(** X8: no address of the parsed list is empty, contains a comma, or
    begins or ends with white space. *)
Theorem attendees_are_clean (data : FormData.t) (a : string) :
  In a (attendeesList data) ->
  a <> ""
  /\ contains "," a = false
  /\ startsWithWhiteSpace a = false
  /\ endsWithWhiteSpace a = false.
Proof.
  intros Hin. pose proof (attendeesList_clean data) as F.
  rewrite Forall_forall in F. exact (F a Hin).
Qed.

Lemma attendees_are_clean_witness :
  In "b@y.com"
     (attendeesList (Sample.draft "2024-01-01T11:00" "2024-01-01T12:00" google))
  /\ "b@y.com" <> ""
  /\ contains "," "b@y.com" = false
  /\ startsWithWhiteSpace "b@y.com" = false
  /\ endsWithWhiteSpace "b@y.com" = false.
Proof.
  split; [right; left; reflexivity|].
  apply (attendees_are_clean
           (Sample.draft "2024-01-01T11:00" "2024-01-01T12:00" google)).
  right; left; reflexivity.
Defined.

Lemma split_onlySeparators (s : string) :
  onlySeparators s = true ->
  Forall (fun p => allWhiteSpace p = true) (JS.split "," s).
Proof.
  induction s as [|c s IH]; simpl.
  - intros _. repeat constructor.
  - intros [C O]%andb_true_iff. specialize (IH O).
    destruct (Ascii.eqb c ",") eqn:E.
    + constructor; [reflexivity | exact IH].
    + simpl in C. destruct (JS.split "," s) as [|q qs].
      * repeat constructor. simpl. now rewrite C.
      * inversion IH; subst. constructor; [simpl; rewrite C|]; assumption.
Qed.

Lemma allWhiteSpace_onlySeparators (s : string) :
  allWhiteSpace s = true -> onlySeparators s = true.
Proof.
  induction s as [|c s IH]; simpl; [reflexivity|].
  intros [W A]%andb_true_iff. rewrite W, (IH A), orb_true_r. reflexivity.
Qed.

Lemma onlySeparators_app (a b : string) :
  onlySeparators (a ++ b) = (onlySeparators a && onlySeparators b)%bool.
Proof.
  induction a as [|x a IH]; simpl; [reflexivity|].
  now rewrite IH, andb_assoc.
Qed.

Lemma join_onlySeparators (pieces : list string) :
  Forall (fun p => allWhiteSpace p = true) pieces ->
  onlySeparators (JS.join "," pieces) = true.
Proof.
  induction 1 as [|p ps Hp _ IH]; [reflexivity|].
  destruct ps as [|q qs]; [now apply allWhiteSpace_onlySeparators|].
  rewrite join_cons by discriminate.
  rewrite onlySeparators_app, (allWhiteSpace_onlySeparators _ Hp).
  cbn [onlySeparators andb]. now rewrite IH.
Qed.

Lemma trim_empty (p : string) : JS.trim p = "" <-> allWhiteSpace p = true.
Proof.
  split.
  - intros E. destruct (trim_trimmedOf p) as (l & r & Hp & Hl & Hr & _).
    rewrite E in Hp. rewrite Hp. simpl.
    now rewrite allWhiteSpace_app, Hl, Hr.
  - intros A. unfold JS.trim. now rewrite trimStart_allWhiteSpace.
Qed.

(** X9: the parsed list is empty exactly when the attendee field holds
    nothing but commas and white space; in particular for the empty
    field. *)
Theorem attendeesList_empty_iff (data : FormData.t) :
  attendeesList data = [] <-> onlySeparators (FormData.attendees data) = true.
Proof.
  unfold attendeesList. split.
  - intros E. rewrite <- (join_split "," (FormData.attendees data)).
    apply join_onlySeparators.
    induction (JS.split "," (FormData.attendees data)) as [|p ps IH];
      [constructor|].
    simpl in E. destruct (JS.Boolean (JS.trim p)) eqn:B; [discriminate|].
    constructor; [|exact (IH E)].
    apply trim_empty. now destruct (JS.trim p).
  - intros O. apply split_onlySeparators in O.
    induction O as [|p ps Hp _ IH]; [reflexivity|].
    simpl. apply trim_empty in Hp. now rewrite Hp.
Qed.

Lemma split_whiteSpace_head (c : ascii) (s : string) :
  JS.isWhiteSpace c = true -> Ascii.eqb c "," = false ->
  map JS.trim (JS.split "," (String c s)) = map JS.trim (JS.split "," s).
Proof.
  intros W E. simpl. rewrite E.
  pose proof (split_not_nil "," s) as N.
  destruct (JS.split "," s) as [|q qs]; [congruence|].
  simpl. f_equal. unfold JS.trim. simpl. now rewrite W.
Qed.

Lemma In_firstn_here {A : Type} (n : nat) (l : list A) (x : A) :
  In x (firstn n l) -> In x l.
Proof.
  revert l. induction n as [|n IH]; intros [|y l]; simpl; try tauto.
  intros [E | H]; auto.
Qed.

Lemma parse_joinWith (addresses : list string) :
  Forall clean addresses ->
  filter JS.Boolean (map JS.trim (JS.split "," (joinWith ", " addresses)))
  = addresses.
Proof.
  induction 1 as [|a rest Ha Hrest IH]; [reflexivity|].
  assert (Fa : contains "," a = false) by apply Ha.
  destruct rest as [|b rest].
  - simpl joinWith. rewrite (split_free_piece "," a Fa). simpl.
    now rewrite (clean_trim a Ha), (clean_Boolean a Ha).
  - change (joinWith ", " (a :: b :: rest))
      with (a ++ String "," (String " " (joinWith ", " (b :: rest)))).
    rewrite split_app by exact Fa.
    cbn [map filter]. rewrite (clean_trim a Ha), (clean_Boolean a Ha).
    f_equal. rewrite split_whiteSpace_head by reflexivity. exact IH.
Qed.

(** X10: the addresses a card shows, joined by a comma and a space, parse
    back to themselves: whatever number of leading addresses of a parsed
    list is joined, typing the text into the attendee field gives those
    addresses again. *)
Theorem shown_attendees_parse_back (data : FormData.t) (n : nat) (p : Page) :
  attendeesList
    (formData
       (onAttendeesChange (joinWith ", " (firstn n (attendeesList data))) p))
  = firstn n (attendeesList data).
Proof.
  unfold attendeesList at 1. simpl. apply parse_joinWith.
  apply Forall_forall. intros a Hin.
  pose proof (attendeesList_clean data) as F. rewrite Forall_forall in F.
  apply F. eapply In_firstn_here, Hin.
Qed.

(** ** More on the two tabs *)

(** X11: a scheduled meeting that has started and has not ended yet is
    listed under neither tab. *)
Theorem meeting_in_progress_is_dropped
    `{host : DateHost} (now : Z) (ms : list Meeting.t) (m : Meeting.t) (s e : Z) :
  Meeting.status m = scheduled ->
  Date.new (Meeting.startTime m) = Some s -> s <= now ->
  Date.new (Meeting.endTime m) = Some e -> now <= e ->
  ~ In m (upcomingMeetings now ms) /\ ~ In m (pastMeetings now ms).
Proof.
  intros Hst Hs Hsn He Hne. split.
  - rewrite upcomingMeetings_In, Hs, Date_gt_Some. intros (_ & _ & L). lia.
  - rewrite pastMeetings_In, He, Date_lt_Some, Hst.
    intros (_ & [D | L]); [discriminate | lia].
Qed.

Lemma meeting_in_progress_is_dropped_witness :
  In (Sample.meeting scheduled "2024-01-01T09:30" "2024-01-01T10:30")
     [Sample.meeting scheduled "2024-01-01T09:30" "2024-01-01T10:30"]
  /\ ~ In (Sample.meeting scheduled "2024-01-01T09:30" "2024-01-01T10:30")
          (upcomingMeetings (host := UTC.host) Sample.now
             [Sample.meeting scheduled "2024-01-01T09:30" "2024-01-01T10:30"])
  /\ ~ In (Sample.meeting scheduled "2024-01-01T09:30" "2024-01-01T10:30")
          (pastMeetings (host := UTC.host) Sample.now
             [Sample.meeting scheduled "2024-01-01T09:30" "2024-01-01T10:30"]).
Proof.
  split; [left; reflexivity|].
  apply (meeting_in_progress_is_dropped (host := UTC.host) Sample.now
           [Sample.meeting scheduled "2024-01-01T09:30" "2024-01-01T10:30"]
           (Sample.meeting scheduled "2024-01-01T09:30" "2024-01-01T10:30")
           1704101400000 1704105000000);
    solve [reflexivity | discriminate].
Defined.

(** X12: a completed meeting of the list is listed as past and never as
    upcoming, whatever its times are, dates or not. *)
Theorem completed_is_past_only
    `{host : DateHost} (now : Z) (ms : list Meeting.t) (m : Meeting.t) :
  In m ms ->
  Meeting.status m = completed ->
  In m (pastMeetings now ms) /\ ~ In m (upcomingMeetings now ms).
Proof.
  intros Hin Hst. split.
  - apply pastMeetings_In. auto.
  - rewrite upcomingMeetings_In, Hst. intros (_ & D & _). discriminate.
Qed.

Lemma completed_is_past_only_witness :
  In (Sample.meeting completed "2024-01-01T11:00" "not a date")
     (pastMeetings (host := UTC.host) Sample.now
        [Sample.meeting completed "2024-01-01T11:00" "not a date"])
  /\ ~ In (Sample.meeting completed "2024-01-01T11:00" "not a date")
          (upcomingMeetings (host := UTC.host) Sample.now
             [Sample.meeting completed "2024-01-01T11:00" "not a date"]).
Proof.
  apply (completed_is_past_only (host := UTC.host) Sample.now
           [Sample.meeting completed "2024-01-01T11:00" "not a date"]
           (Sample.meeting completed "2024-01-01T11:00" "not a date"));
    [left|]; reflexivity.
Defined.




(** X14: as the clock advances, a meeting listed as past stays past, and a
    meeting listed as upcoming was upcoming at every earlier reading. *)
Theorem tabs_follow_the_clock
    `{host : DateHost} (now later : Z) (ms : list Meeting.t) :
  now <= later ->
  incl (pastMeetings now ms) (pastMeetings later ms)
  /\ incl (upcomingMeetings later ms) (upcomingMeetings now ms).
Proof.
  intros Hle. split; intros m.
  - rewrite !pastMeetings_In. intros (Hin & [C | L]); split; auto. right.
    destruct (Date.new (Meeting.endTime m)) as [e|]; [|discriminate].
    rewrite Date_lt_Some in *. lia.
  - rewrite !upcomingMeetings_In. intros (Hin & S & G); repeat split; auto.
    destruct (Date.new (Meeting.startTime m)) as [s|]; [|discriminate].
    rewrite Date_gt_Some in *. lia.
Qed.

Lemma tabs_follow_the_clock_witness :
  incl (pastMeetings (host := UTC.host) Sample.now
          [Sample.meeting scheduled "2024-01-01T08:00" "2024-01-01T09:00"])
       (pastMeetings (host := UTC.host) 1704106800000
          [Sample.meeting scheduled "2024-01-01T08:00" "2024-01-01T09:00"]).
Proof.
  assert (H : Sample.now <= 1704106800000) by (unfold Sample.now; lia).
  exact (proj1 (tabs_follow_the_clock (host := UTC.host) Sample.now 1704106800000
                  [Sample.meeting scheduled "2024-01-01T08:00" "2024-01-01T09:00"]
                  H)).
Defined.

(** X15: a meeting created for a time after the current clock reading is
    the first card of the upcoming tab, ahead of those listed before. *)
Theorem created_meeting_heads_upcoming
    `{host : DateHost} (response : Response.t) (variables : FormData.t)
    (created now : Z) (p : Page) (s : Z) :
  Date.new (FormData.startTime variables) = Some s -> now < s ->
  exists newMeeting : Meeting.t,
    meetings (onSuccess response variables created p) = newMeeting :: meetings p
    /\ upcomingMeetings now (meetings (onSuccess response variables created p))
       = newMeeting :: upcomingMeetings now (meetings p)
    /\ upcomingTab now (meetings (onSuccess response variables created p))
       = cards ((newMeeting, false)
                  :: map (fun m => (m, false)) (upcomingMeetings now (meetings p))).
Proof.
  intros Hs Hlt.
  eexists. split; [reflexivity|].
  assert (U : forall m rest,
             Meeting.status m = scheduled ->
             Meeting.startTime m = FormData.startTime variables ->
             upcomingMeetings now (m :: rest) = m :: upcomingMeetings now rest).
  { intros m rest Hst Hm. unfold upcomingMeetings. cbn [filter].
    rewrite Hst, Hm, Hs.
    rewrite (proj2 (Date_gt_Some s now) Hlt). reflexivity. }
  split.
  - now apply U.
  - unfold upcomingTab. cbn [meetings onSuccess resetForm setFormData
      setIsCreateDialogOpen setMeetings notify].
    rewrite U by reflexivity. reflexivity.
Qed.

Lemma created_meeting_heads_upcoming_witness :
  exists newMeeting : Meeting.t,
    meetings (onSuccess Sample.nestedLink
                (Sample.draft "2024-01-01T11:00" "2024-01-01T12:00" google)
                Sample.now (Sample.page Sample.blank))
    = newMeeting :: meetings (Sample.page Sample.blank)
    /\ upcomingMeetings (host := UTC.host) Sample.now
         (meetings (onSuccess Sample.nestedLink
                      (Sample.draft "2024-01-01T11:00" "2024-01-01T12:00" google)
                      Sample.now (Sample.page Sample.blank)))
       = newMeeting
           :: upcomingMeetings (host := UTC.host) Sample.now
                (meetings (Sample.page Sample.blank))
    /\ upcomingTab (host := UTC.host) Sample.now
         (meetings (onSuccess Sample.nestedLink
                      (Sample.draft "2024-01-01T11:00" "2024-01-01T12:00" google)
                      Sample.now (Sample.page Sample.blank)))
       = cards ((newMeeting, false)
                  :: map (fun m => (m, false))
                       (upcomingMeetings (host := UTC.host) Sample.now
                          (meetings (Sample.page Sample.blank)))).
Proof.
  apply (created_meeting_heads_upcoming (host := UTC.host) Sample.nestedLink
           (Sample.draft "2024-01-01T11:00" "2024-01-01T12:00" google)
           Sample.now Sample.now (Sample.page Sample.blank) 1704106800000);
    reflexivity.
Defined.

(** ** The "This Week" card *)

(** X16: a meeting is counted on the "This Week" card exactly when it is a
    scheduled meeting of the list whose start is a date after the current
    time and not after the date seven days from now; the count never
    exceeds the upcoming count. *)
Theorem thisWeek_counts_the_next_seven_days
    `{host : DateHost} `{calendar : CalendarHost}
    (now : Z) (ms : list Meeting.t) (m : Meeting.t) :
  (In m (thisWeek now ms)
   <-> In m ms
       /\ Meeting.status m = scheduled
       /\ exists s weekFromNow,
            Date.new (Meeting.startTime m) = Some s
            /\ Date_plusDays now 7 = Some weekFromNow
            /\ now < s <= weekFromNow)
  /\ (length (thisWeek now ms) <= length (upcomingMeetings now ms))%nat.
Proof.
  split.
  - unfold thisWeek. rewrite filter_In, upcomingMeetings_In. cbv zeta.
    destruct (Date.new (Meeting.startTime m)) as [s|];
      destruct (Date_plusDays now 7) as [w|]; cbn [Date_le].
    + rewrite Date_gt_Some, Z.leb_le. split.
      * intros ((Hin & Hst & G) & L). repeat split; auto.
        exists s, w. repeat split; auto.
      * intros (Hin & Hst & s' & w' & [= <-] & [= <-] & G & L). auto.
    + split; [intros (_ & D); discriminate|].
      intros (_ & _ & s' & w' & _ & D & _). discriminate.
    + split; [intros (_ & D); discriminate|].
      intros (_ & _ & s' & w' & D & _). discriminate.
    + split; [intros (_ & D); discriminate|].
      intros (_ & _ & s' & w' & D & _). discriminate.
  - unfold thisWeek. apply filter_length_le.
Qed.

(** ** Meeting cards *)

Lemma append_assoc' (a b c : string) : (a ++ b) ++ c = a ++ b ++ c.
Proof. induction a; simpl; congruence. Qed.

(** X17: the attendee line of a card is absent without attendees, shows
    one or two addresses in full, and beyond two shows the first two
    followed by the number of addresses left out. *)
Theorem attendeeLine_shows_two_and_counts_the_rest (meeting : Meeting.t) :
  MeetingCard.attendeeLine meeting
  = match Meeting.attendees meeting with
    | [] => None
    | [a] => Some a
    | [a; b] => Some (a ++ ", " ++ b)
    | a :: b :: c :: rest =>
        Some (a ++ ", " ++ b ++ " +"
                ++ JS.toString (Z.of_nat (length (c :: rest))) ++ " more")
    end.
Proof.
  unfold MeetingCard.attendeeLine.
  destruct (Meeting.attendees meeting) as [|a [|b [|c rest]]].
  - reflexivity.
  - simpl. now rewrite append_empty_r.
  - simpl. now rewrite append_empty_r.
  - change (firstn 2 (a :: b :: c :: rest)) with [a; b].
    change (0 <? length (a :: b :: c :: rest))%nat with true.
    change (2 <? length (a :: b :: c :: rest))%nat with true.
    cbv iota. cbn [joinWith].
    replace (Z.of_nat (length (a :: b :: c :: rest)) - 2)
      with (Z.of_nat (length (c :: rest))) by (cbn [length]; lia).
    now rewrite !append_assoc'.
Qed.

(** X18: every card of the past tab is rendered as past and has no "Join
    Meeting" button, whatever join address the meeting holds. *)
Theorem past_cards_have_no_join_button
    `{host : DateHost} (now : Z) (ms : list Meeting.t)
    (shown : list (Meeting.t * bool)) (m : Meeting.t) (isPast : bool) :
  pastTab now ms = cards shown ->
  In (m, isPast) shown ->
  isPast = true
  /\ In m (pastMeetings now ms)
  /\ MeetingCard.joinMeeting m isPast = None.
Proof.
  unfold pastTab. destruct (length _ =? 0)%nat; [discriminate|].
  intros [= <-] Hin. apply in_map_iff in Hin as (m' & [= -> <-] & Hin).
  repeat split; [exact Hin|].
  unfold MeetingCard.joinMeeting. now rewrite andb_false_r.
Qed.

Lemma past_cards_have_no_join_button_witness :
  MeetingCard.joinMeeting
    (Sample.meeting scheduled "2024-01-01T08:00" "2024-01-01T09:00") true
  = None.
Proof.
  apply (past_cards_have_no_join_button (host := UTC.host) Sample.now
           [Sample.meeting scheduled "2024-01-01T08:00" "2024-01-01T09:00"]
           [(Sample.meeting scheduled "2024-01-01T08:00" "2024-01-01T09:00", true)]
           (Sample.meeting scheduled "2024-01-01T08:00" "2024-01-01T09:00") true);
    [reflexivity | left; reflexivity].
Defined.

(** X19: on the card of a created meeting, "View Event" leads to the
    top-level link of the response when that is not empty, otherwise to
    the link under [data] when that is not empty, and is not rendered
    otherwise; on an upcoming card "Join Meeting" follows the same rule
    for the join address. *)
Theorem created_meeting_buttons
    (response : Response.t) (variables : FormData.t) (now : Z) (p : Page) :
  let pick (top : option string) (nested : ResponseData.t -> option string) :=
    match top with
    | Some (String c s) => Some (String c s)
    | _ =>
        match Response.data response with
        | Some d =>
            match nested d with
            | Some (String c s) => Some (String c s)
            | _ => None
            end
        | None => None
        end
    end in
  exists newMeeting : Meeting.t,
    meetings (onSuccess response variables now p) = newMeeting :: meetings p
    /\ MeetingCard.viewEvent newMeeting
       = pick (Response.meetingLink response) ResponseData.meetingLink
    /\ MeetingCard.joinMeeting newMeeting false
       = pick (Response.joinUrl response) ResponseData.joinUrl.
Proof.
  intros pick. eexists. split; [reflexivity|].
  unfold MeetingCard.viewEvent, MeetingCard.joinMeeting. simpl. split.
  - destruct (Response.meetingLink response) as [[|c s]|];
      destruct (Response.data response) as [[[[|c' s']|] j]|]; reflexivity.
  - destruct (Response.joinUrl response) as [[|c s]|];
      destruct (Response.data response) as [[l [[|c' s']|]]|]; reflexivity.
Qed.

(** ** Runs on the UTC host *)

Lemma attendeesList_empty_iff_witness :
  attendeesList
    {| FormData.title := "Retro";
       FormData.description := "";
       FormData.startTime := "2024-01-01T11:00";
       FormData.endTime := "2024-01-01T12:00";
       FormData.attendees := " , ,, ";
       FormData.platform := google |}
  = [].
Proof.
  apply (proj2 (attendeesList_empty_iff _)). reflexivity.
Defined.

Lemma thisWeek_counts_the_next_seven_days_witness :
  In (Sample.meeting scheduled "2024-01-08T10:00" "2024-01-08T11:00")
     (thisWeek (host := UTC.host) (calendar := UTC_calendar) Sample.now
        [Sample.meeting scheduled "2024-01-08T10:00" "2024-01-08T11:00"])
  /\ ~ In (Sample.meeting scheduled "2024-01-08T10:01" "2024-01-08T11:00")
          (thisWeek (host := UTC.host) (calendar := UTC_calendar) Sample.now
             [Sample.meeting scheduled "2024-01-08T10:01" "2024-01-08T11:00"]).
Proof.
  split.
  - apply (proj1 (thisWeek_counts_the_next_seven_days
                    (host := UTC.host) (calendar := UTC_calendar) Sample.now
                    [Sample.meeting scheduled "2024-01-08T10:00" "2024-01-08T11:00"]
                    (Sample.meeting scheduled "2024-01-08T10:00" "2024-01-08T11:00"))).
    split; [left; reflexivity|]. split; [reflexivity|].
    exists 1704708000000, 1704708000000.
    repeat split; discriminate.
  - intros Hin.
    apply (proj1 (thisWeek_counts_the_next_seven_days
                    (host := UTC.host) (calendar := UTC_calendar) Sample.now
                    [Sample.meeting scheduled "2024-01-08T10:01" "2024-01-08T11:00"]
                    (Sample.meeting scheduled "2024-01-08T10:01" "2024-01-08T11:00")))
      in Hin.
    destruct Hin as (_ & _ & s & w & [= <-] & [= <-] & _ & L).
    now apply L.
Defined.
